(** * BLAST online tool: the result normaliser and the handlers around it

    A shallow embedding of [app.py]: [parse_blast_results] (three nested
    loops appending to one list), the [/blast] submission handler, the
    [/<username>/<taskname>] results handler, and the account and task-list
    handlers ([register], [login], [logout], [user_index], [delete_task]).
    Biopython ([NCBIXML.parse],
    [NCBIWWW.qblast]), the [json] module and the clock are not part of the
    repository; they are Section variables. *)

From Stdlib Require Import List String ZArith Bool Lia SpecFloat.
Import ListNotations.
Open Scope string_scope.

(** ** Python values *)

(** The values that end up in a parsed entry: [str], [int] and [float]. *)
Inductive value : Type :=
| VStr (s : string)
| VInt (z : Z)
| VFloat (f : spec_float).

(** The type tag of a value, as [type(v).__name__] would give it. *)
Definition type_name (v : value) : string :=
  match v with
  | VStr _ => "str"
  | VInt _ => "int"
  | VFloat _ => "float"
  end.

(** A dict literal with string keys, in insertion order. *)
Definition dict : Type := list (string * value).

Fixpoint dict_get (d : dict) (key : string) : option value :=
  match d with
  | [] => None
  | (k, v) :: rest => if String.eqb k key then Some v else dict_get rest key
  end.

Definition dict_keys (d : dict) : list string := map fst d.

(** [float(z)] for an integer that a double represents exactly. *)
Definition float_of_Z (z : Z) : spec_float := binary_normalize 53 1024 z 0 false.

(** An exception object; the handlers only ever look at [str(e)]. *)
Inductive Exception : Type :=
| PyExc (kind : string) (msg : string).

Definition str_exc (e : Exception) : string :=
  match e with PyExc _ msg => msg end.

(** The outcome of a call: a value, or an exception on its way up. *)
Inductive result (A : Type) : Type :=
| Return (a : A)
| Raised (e : Exception).
Arguments Return {A} a.
Arguments Raised {A} e.

(** A Python generator over a finite input: it yields, stops, or raises in
    the middle of the iteration. *)
Inductive generator (A : Type) : Type :=
| StopIteration
| Yield (a : A) (rest : generator A)
| Raise (e : Exception).
Arguments StopIteration {A}.
Arguments Yield {A} a rest.
Arguments Raise {A} e.

(** The generator that yields the elements of a list and stops. *)
Fixpoint iter {A : Type} (l : list A) : generator A :=
  match l with
  | [] => StopIteration
  | a :: rest => Yield a (iter rest)
  end.

(** What a generator yields before it ends, and the exception it ends with
    (if it does not simply stop). *)
Fixpoint yielded {A : Type} (g : generator A) : list A :=
  match g with
  | StopIteration => []
  | Yield a rest => a :: yielded rest
  | Raise _ => []
  end.

Fixpoint raises {A : Type} (g : generator A) : option Exception :=
  match g with
  | StopIteration => None
  | Yield _ rest => raises rest
  | Raise e => Some e
  end.

(** ** The alignment report *)

(** Modelled from the spec: the classes of [Bio.Blast.Record] (HSP,
    Alignment, Blast record) are Biopython's and not in the repository; the
    attributes are those [parse_blast_results] reads, typed as section 3 of
    the specification types them. *)
Module HSP.
Record t : Type := mk {
  score : spec_float;
  expect : spec_float;
  query_start : Z;
  query_end : Z;
  query : string;
  match_ : string;
  sbjct : string
}.
End HSP.

Module Alignment.
Record t : Type := mk {
  title : string;
  length : Z;
  hsps : list HSP.t
}.
End Alignment.

Module Blast.
Record t : Type := mk {
  alignments : list Alignment.t
}.
End Blast.

(** The dict literal of lines 53-63. *)
Definition entry (alignment : Alignment.t) (hsp : HSP.t) : dict :=
  [ ("title", VStr (Alignment.title alignment));
    ("length", VInt (Alignment.length alignment));
    ("score", VFloat (HSP.score hsp));
    ("e_value", VFloat (HSP.expect hsp));
    ("query_start", VInt (HSP.query_start hsp));
    ("query_end", VInt (HSP.query_end hsp));
    ("qseq", VStr (HSP.query hsp));
    ("match", VStr (HSP.match_ hsp));
    ("hseq", VStr (HSP.sbjct hsp)) ].

(** [for hsp in alignment.hsps: parsed_results.append({...})]; the list
    being appended to is threaded through. *)
Fixpoint for_hsp (alignment : Alignment.t) (hsps : list HSP.t)
    (parsed_results : list dict) : list dict :=
  match hsps with
  | [] => parsed_results
  | hsp :: rest =>
      for_hsp alignment rest (parsed_results ++ [entry alignment hsp])%list
  end.

(** [for alignment in blast_record.alignments: ...] *)
Fixpoint for_alignment (alignments : list Alignment.t)
    (parsed_results : list dict) : list dict :=
  match alignments with
  | [] => parsed_results
  | alignment :: rest =>
      for_alignment rest (for_hsp alignment (Alignment.hsps alignment) parsed_results)
  end.

(** [for blast_record in blast_records: ...] over the parser's generator.
    An exception raised by the generator leaves the loop and the function;
    the list built so far is a local and goes with it. *)
Fixpoint for_blast_record (blast_records : generator Blast.t)
    (parsed_results : list dict) : result (list dict) :=
  match blast_records with
  | StopIteration => Return parsed_results
  | Yield blast_record rest =>
      for_blast_record rest
        (for_alignment (Blast.alignments blast_record) parsed_results)
  | Raise e => Raised e
  end.

(** ** What the specification counts and orders by *)

Definition hsp_count (alignment : Alignment.t) : nat :=
  List.length (Alignment.hsps alignment).

Definition record_hsp_count (blast_record : Blast.t) : nat :=
  list_sum (map hsp_count (Blast.alignments blast_record)).

Definition report_hsp_count (records : list Blast.t) : nat :=
  list_sum (map record_hsp_count records).

(** The entries of a report in nesting order: record, then alignment, then
    HSP. *)
Definition nesting_order (records : list Blast.t) : list dict :=
  flat_map
    (fun r => flat_map (fun a => map (entry a) (Alignment.hsps a)) (Blast.alignments r))
    records.

(** The place in the output of HSP [k] of alignment [j] of record [i]: the
    HSPs of the records before, those of the alignments before in the same
    record, and [k]. *)
Definition position (records : list Blast.t) (i j k : nat) : nat :=
  report_hsp_count (firstn i records)
  + list_sum (map hsp_count
      (firstn j (Blast.alignments (nth i records (Blast.mk [])))))
  + k.

(** The field names section 3 of the specification gives a MatchEntry. *)
Definition spec_field_names : list string :=
  [ "title"; "length"; "score"; "e_value"; "query_start"; "query_end";
    "query_sequence"; "match_line"; "subject_sequence" ].

(** The keys [parse_blast_results] gives each entry. *)
Definition entry_keys : list string :=
  [ "title"; "length"; "score"; "e_value"; "query_start"; "query_end";
    "qseq"; "match"; "hseq" ].

(** ** The persistence store *)

Module User.
Record t : Type := mk {
  id : Z;
  username : string;
  password : string
}.
End User.

(** A row of the task table: [result] is the only nullable column. *)
Module Task.
Record t : Type := mk {
  id : Z;
  taskname : string;
  program : string;
  database : string;
  sequence : string;
  result : option string;
  user_id : Z
}.
End Task.

(** A [Task(...)] object before it is flushed: it has no id yet, and the
    form values it was built from may be [None]. *)
Module NewTask.
Record t : Type := mk {
  taskname : string;
  program : option string;
  database : option string;
  sequence : option string;
  result : option string;
  user_id : Z
}.
End NewTask.

(** The two tables and the objects added to the session and not yet
    committed. *)
Module DB.
Record t : Type := mk {
  users : list User.t;
  tasks : list Task.t;
  pending : list NewTask.t
}.
End DB.

(** Code that runs against the store and may raise: the state at the point
    of the exception is kept. *)
Definition M (A : Type) : Type := DB.t -> result A * DB.t.

Definition ret {A : Type} (a : A) : M A := fun db => (Return a, db).

Definition bind {A B : Type} (c : M A) (k : A -> M B) : M B :=
  fun db =>
    match c db with
    | (Return a, db') => k a db'
    | (Raised e, db') => (Raised e, db')
    end.

(** A call that does not touch the store. *)
Definition call {A : Type} (r : result A) : M A := fun db => (r, db).

Notation "x <- c ;; k" := (bind c (fun x => k))
  (at level 61, c at next level, right associativity).
Notation "c ;;; k" := (bind c (fun _ => k))
  (at level 61, right associativity).

(** The next value of the autoincrement primary key. *)
Definition next_id (tasks : list Task.t) : Z :=
  fold_right (fun t m => Z.max (Task.id t) m) 0%Z tasks + 1.

(** INSERT of one task: the columns declared [nullable=False] reject
    [None], and [taskname] is [unique=True]. *)
Definition insert_task (t : NewTask.t) (tasks : list Task.t) : result (list Task.t) :=
  match NewTask.program t, NewTask.database t, NewTask.sequence t with
  | Some program, Some database, Some sequence =>
      if existsb (fun row => String.eqb (Task.taskname row) (NewTask.taskname t)) tasks
      then Raised (PyExc "IntegrityError" "UNIQUE constraint failed: task.taskname")
      else Return (tasks ++
             [Task.mk (next_id tasks) (NewTask.taskname t) program database
                      sequence (NewTask.result t) (NewTask.user_id t)])%list
  | _, _, _ => Raised (PyExc "IntegrityError" "NOT NULL constraint failed")
  end.

Fixpoint flush (pending : list NewTask.t) (tasks : list Task.t) : result (list Task.t) :=
  match pending with
  | [] => Return tasks
  | t :: rest =>
      match insert_task t tasks with
      | Return tasks' => flush rest tasks'
      | Raised e => Raised e
      end
  end.

(** [db.session.add(task)] *)
Definition session_add (task : NewTask.t) : M unit :=
  fun db => (Return tt, DB.mk (DB.users db) (DB.tasks db) (DB.pending db ++ [task])%list).

(** [db.session.commit()]: all pending rows are written, or none is.  After
    a failed commit the session is left here as the commit found it; the
    rollback, and the discarding of the session when the request ends, are
    the framework's and are not modelled. *)
Definition session_commit : M unit :=
  fun db =>
    match flush (DB.pending db) (DB.tasks db) with
    | Return tasks' => (Return tt, DB.mk (DB.users db) tasks' [])
    | Raised e => (Raised e, db)
    end.

(** ** Requests and responses *)

Inductive Method : Type := GET | POST.

(** The three form fields the handler reads with [data.get]. *)
Module Form.
Record t : Type := mk {
  program : option string;
  database : option string;
  sequence : option string
}.
End Form.

Module Request.
Record t : Type := mk {
  method : Method;
  form : Form.t
}.
End Request.

Inductive Response : Type :=
| redirect_login
| redirect_user_index (username : string)
| render_blast (task_running : bool)
| render_results (task : Task.t) (results : list dict)
| abort_404
| error_500 (error : string).

(** What a handler leaves behind: the flashed messages (message, category)
    and the response. *)
Module Reply.
Record t : Type := mk {
  flashed : list (string * string);
  response : Response
}.
End Reply.

(** [str(x)] inside an f-string, for a form value that may be [None]. *)
Definition format (x : option string) : string :=
  match x with
  | Some s => s
  | None => "None"
  end.

(** Truthiness of a nullable text column: [None] and the empty string are
    false. *)
Definition truthy (x : option string) : option string :=
  match x with
  | Some EmptyString => None
  | other => other
  end.

Section App.

(** [NCBIXML.parse] on the text of a handle: the generator of records. *)
Variable NCBIXML_parse : string -> generator Blast.t.

(** [NCBIWWW.qblast(program, database, sequence)] followed by [read()] and
    [close()] on the handle: the report text, or the network error. *)
Variable NCBIWWW_qblast :
  option string -> option string -> option string -> result string.

Variable json_dumps : list dict -> string.
Variable json_loads : string -> result (list dict).

(** Lines 45-65. *)
Definition parse_blast_results (blast_results : string) : result (list dict) :=
  let blast_records := NCBIXML_parse blast_results in
  let parsed_results := [] in
  for_blast_record blast_records parsed_results.

(** The body of the [try] of [blast] (lines 137-158); [now] is
    [datetime.now().strftime('%Y%m%d_%H%M%S')]. *)
Definition blast_try (current_user : User.t) (program database sequence : option string)
    (now : string) : M unit :=
  blast_results <- call (NCBIWWW_qblast program database sequence) ;;
  parsed_results <- call (parse_blast_results blast_results) ;;
  let formatted_taskname :=
    format program ++ "_" ++ format database ++ "_" ++ now in
  let task :=
    NewTask.mk formatted_taskname program database sequence
               (Some (json_dumps parsed_results)) (User.id current_user) in
  session_add task ;;;
  session_commit.

(** The [/blast] handler, behind [login_required]. *)
Definition blast (current_user : option User.t) (request : Request.t) (now : string)
    (db : DB.t) : Reply.t * DB.t :=
  match current_user with
  | None => (Reply.mk [] redirect_login, db)
  | Some user =>
      match Request.method request with
      | POST =>
          let data := Request.form request in
          let program := Form.program data in
          let database := Form.database data in
          let sequence := Form.sequence data in
          match blast_try user program database sequence now db with
          | (Return _, db') =>
              (Reply.mk [("BLAST成功!", "success")]
                        (redirect_user_index (User.username user)), db')
          | (Raised e, db') =>
              (Reply.mk [("发生错误: " ++ str_exc e, "danger")] (render_blast true), db')
          end
      | GET => (Reply.mk [] (render_blast false), db)
      end
  end.

(** The [/<username>/<taskname>] handler, behind [login_required]; an
    exception that leaves it reaches the handler registered for
    [Exception] and becomes a 500. *)
Definition results (current_user : option User.t) (username taskname : string)
    (db : DB.t) : Reply.t :=
  match current_user with
  | None => Reply.mk [] redirect_login
  | Some cu =>
      match find (fun u => String.eqb (User.username u) username) (DB.users db) with
      | None => Reply.mk [] abort_404
      | Some user =>
          match find (fun t => String.eqb (Task.taskname t) taskname
                               && Z.eqb (Task.user_id t) (User.id user))
                     (DB.tasks db) with
          | None => Reply.mk [] abort_404
          | Some task =>
              if negb (Z.eqb (Task.user_id task) (User.id cu))
              then Reply.mk [("无权访问该任务的结果！", "danger")]
                            (redirect_user_index (User.username cu))
              else
                match truthy (Task.result task) with
                | None => Reply.mk [] (render_results task [])
                | Some text =>
                    match json_loads text with
                    | Return parsed_results =>
                        Reply.mk [] (render_results task parsed_results)
                    | Raised e => Reply.mk [] (error_500 (str_exc e))
                    end
                end
          end
      end
  end.

End App.

(** ** The account and task-list handlers *)

(** What the handlers of this part answer with: a rendered template with
    its arguments, a redirect, the 404 page of [not_found], or the JSON
    error of [handle_exception]. *)
Inductive Page : Type :=
| main_index_html
| user_index_html (tasks : list Task.t) (user : User.t)
| register_html (username_taken : bool)
| login_html (error : bool)
| to_login
| to_user_index (username : string)
| to_main_index
| page_404
| json_error_500 (error : string).

Module Answer.
Record t : Type := mk {
  flashed : list (string * string);
  page : Page
}.
End Answer.

(** The two fields of the register and login forms; [None] is a field the
    request does not carry. *)
Module Credentials.
Record t : Type := mk {
  username : option string;
  password : option string
}.
End Credentials.

(** [request.form[key]]: a missing key raises. *)
Definition form_item (x : option string) : result string :=
  match x with
  | Some s => Return s
  | None => Raised (PyExc "BadRequestKeyError" "400 Bad Request")
  end.

(** Lines 198-200: the 404 page. *)
Definition not_found : Answer.t := Answer.mk [] page_404.

(** Lines 203-207: an exception that leaves a handler becomes a JSON body
    with [str(error)] and status 500. *)
Definition handle_exception (error : Exception) : Answer.t :=
  Answer.mk [] (json_error_500 (str_exc error)).

(** A handler body run against the store, with [handle_exception] around
    it. *)
Definition dispatch (body : M Answer.t) (db : DB.t) : Answer.t * DB.t :=
  match body db with
  | (Return answer, db') => (answer, db')
  | (Raised e, db') => (handle_exception e, db')
  end.

(** The next value of the autoincrement primary key of the user table. *)
Definition next_user_id (users : list User.t) : Z :=
  fold_right (fun u m => Z.max (User.id u) m) 0%Z users + 1.

(** INSERT of one user: [username] is [unique=True]. *)
Definition insert_user (username password : string) (users : list User.t)
    : result (list User.t) :=
  if existsb (fun row => String.eqb (User.username row) username) users
  then Raised (PyExc "IntegrityError" "UNIQUE constraint failed: user.username")
  else Return (users ++ [User.mk (next_user_id users) username password])%list.

(** [db.session.add(new_user)] followed by [db.session.commit()]: the user
    and whatever else is pending are written, or nothing is. *)
Definition add_user_commit (username password : string) : M unit :=
  fun db =>
    match flush (DB.pending db) (DB.tasks db) with
    | Raised e => (Raised e, db)
    | Return tasks' =>
        match insert_user username password (DB.users db) with
        | Raised e => (Raised e, db)
        | Return users' => (Return tt, DB.mk users' tasks' [])
        end
    end.

(** [db.session.delete(task)] followed by [db.session.commit()]: the row
    with the task's primary key goes, whatever is pending is written, or
    nothing happens. *)
Definition delete_task_commit (task : Task.t) : M unit :=
  fun db =>
    match flush (DB.pending db) (DB.tasks db) with
    | Raised e => (Raised e, db)
    | Return tasks' =>
        (Return tt,
         DB.mk (DB.users db)
               (filter (fun row => negb (Z.eqb (Task.id row) (Task.id task))) tasks')
               [])
    end.

(** [User.query.filter_by(username=username).first()] *)
Definition user_by_username (username : string) (db : DB.t) : option User.t :=
  find (fun u => String.eqb (User.username u) username) (DB.users db).

(** Lines 68-70. *)
Definition main_index : Answer.t := Answer.mk [] main_index_html.

(** Lines 73-83, behind [login_required]. *)
Definition user_index (current_user : option User.t) (username : string) (db : DB.t)
    : Answer.t :=
  match current_user with
  | None => Answer.mk [] to_login
  | Some cu =>
      if negb (String.eqb username (User.username cu))
      then Answer.mk [("无权访问该用户的主页！", "danger")]
                     (to_user_index (User.username cu))
      else
        match user_by_username username db with
        | None => not_found
        | Some user =>
            let tasks :=
              filter (fun t => Z.eqb (Task.user_id t) (User.id user)) (DB.tasks db) in
            Answer.mk [] (user_index_html tasks user)
        end
  end.

(** Lines 86-99. *)
Definition register_post (form : Credentials.t) : M Answer.t :=
  username <- call (form_item (Credentials.username form)) ;;
  password <- call (form_item (Credentials.password form)) ;;
  fun db =>
    match user_by_username username db with
    | Some _ => (Return (Answer.mk [] (register_html true)), db)
    | None =>
        (add_user_commit username password ;;;
         ret (Answer.mk [("注册成功，请登录！", "success")] to_login)) db
    end.

Definition register (method : Method) (form : Credentials.t) (db : DB.t)
    : Answer.t * DB.t :=
  match method with
  | POST => dispatch (register_post form) db
  | GET => (Answer.mk [] (register_html false), db)
  end.

(** Lines 102-115.  The second component is the user of the session after
    the request: [login_user(user)] on success, the one before otherwise. *)
Definition login (method : Method) (form : Credentials.t)
    (current_user : option User.t) (db : DB.t) : Answer.t * option User.t :=
  match method with
  | POST =>
      match form_item (Credentials.username form) with
      | Raised e => (handle_exception e, current_user)
      | Return username =>
          match form_item (Credentials.password form) with
          | Raised e => (handle_exception e, current_user)
          | Return password =>
              match user_by_username username db with
              | Some user =>
                  if String.eqb (User.password user) password
                  then (Answer.mk [] (to_user_index (User.username user)), Some user)
                  else (Answer.mk [] (login_html true), current_user)
              | None => (Answer.mk [] (login_html true), current_user)
              end
          end
      end
  | GET => (Answer.mk [] (login_html false), current_user)
  end.

(** Lines 118-122, behind [login_required]. *)
Definition logout (current_user : option User.t) : Answer.t * option User.t :=
  match current_user with
  | None => (Answer.mk [] to_login, None)
  | Some _ => (Answer.mk [] to_main_index, None)
  end.

(** Lines 185-195, behind [login_required]; [Task.query.get(task_id)] is the
    row with that primary key.  The lookup is modelled for the ids the
    INTEGER primary key can hold ([sqlite_integer]); an id outside that
    range cannot be bound to the query and the real lookup raises. *)
Definition delete_task_body (cu : User.t) (task_id : Z) : M Answer.t :=
  fun db =>
    match find (fun t => Z.eqb (Task.id t) task_id) (DB.tasks db) with
    | Some task =>
        if Z.eqb (Task.user_id task) (User.id cu)
        then
          (delete_task_commit task ;;;
           ret (Answer.mk [("任务已成功删除！", "success")]
                          (to_user_index (User.username cu)))) db
        else
          (Return (Answer.mk [("无权删除该任务或任务不存在！", "error")]
                             (to_user_index (User.username cu))), db)
    | None =>
        (Return (Answer.mk [("无权删除该任务或任务不存在！", "error")]
                           (to_user_index (User.username cu))), db)
    end.

Definition delete_task (current_user : option User.t) (task_id : Z) (db : DB.t)
    : Answer.t * DB.t :=
  match current_user with
  | None => (Answer.mk [] to_login, db)
  | Some cu => dispatch (delete_task_body cu task_id) db
  end.

(** ** Consistency of the store *)

(** The keys the schema declares unique are unique: primary keys and
    [username] in the user table, primary keys and [taskname] in the task
    table. *)
Definition unique_users (db : DB.t) : Prop :=
  NoDup (map User.id (DB.users db)) /\ NoDup (map User.username (DB.users db)).

Definition unique_tasks (db : DB.t) : Prop :=
  NoDup (map Task.id (DB.tasks db)) /\ NoDup (map Task.taskname (DB.tasks db)).

(** The task name [blast] builds (line 146). *)
Definition formatted_taskname (program database : option string) (now : string) : string :=
  format program ++ "_" ++ format database ++ "_" ++ now.

(** ** Example data *)

(** HSP [k] of alignment [j] of record [i], with its alignment. *)
Definition hsp_at (records : list Blast.t) (i j k : nat) : option (Alignment.t * HSP.t) :=
  match nth_error records i with
  | None => None
  | Some r =>
      match nth_error (Blast.alignments r) j with
      | None => None
      | Some a =>
          match nth_error (Alignment.hsps a) k with
          | None => None
          | Some h => Some (a, h)
          end
      end
  end.

(** Nesting order on coordinates: record first, then alignment, then HSP. *)
Definition before (i j k i' j' k' : nat) : Prop :=
  i < i' \/ (i = i' /\ (j < j' \/ (j = j' /\ k < k'))).

Definition hsp_100 : HSP.t :=
  HSP.mk (float_of_Z 100) (float_of_Z 0) 1 60 "ACGT-ACGT" "|||| ||||" "ACGTTACGT".

Definition hsp_80 : HSP.t :=
  HSP.mk (float_of_Z 80) (float_of_Z 1) 7 50 " ACG " " ||| " " ACG ".

Definition clone_X : Alignment.t :=
  Alignment.mk "Homo sapiens clone X" 500 [hsp_100; hsp_80].

Definition clone_Y : Alignment.t :=
  Alignment.mk "Mus musculus clone Y" 321 [hsp_80].

Definition one_record : list Blast.t := [Blast.mk [clone_X]].

Definition two_records : list Blast.t :=
  [Blast.mk [clone_X; clone_Y]; Blast.mk []; Blast.mk [clone_Y; clone_X]].

(** A stand-in for the parser: it knows one text, and raises on any other
    the way the XML parser does on text that is no report. *)
Definition parse_only (known : string) (g : generator Blast.t) (text : string)
    : generator Blast.t :=
  if String.eqb text known then g
  else Raise (PyExc "ValueError" "Your XML file did not start with <?xml").

(** A stand-in for the parser that knows two texts. *)
Definition parse_either (t1 : string) (g1 : generator Blast.t)
    (t2 : string) (g2 : generator Blast.t) (g : generator Blast.t) (text : string)
    : generator Blast.t :=
  if String.eqb text t1 then g1
  else if String.eqb text t2 then g2
  else g.

(** A stand-in for the remote service that answers every query with the
    same outcome. *)
Definition qblast_const (r : result string)
    (program database sequence : option string) : result string := r.

Definition alice : User.t := User.mk 1 "alice" "secret".
Definition bob : User.t := User.mk 2 "bob" "hunter2".

Definition alice_task : Task.t :=
  Task.mk 1 "blastn_nt_20240101_120000" "blastn" "nt" "ACGT" (Some "[]") 1.

Definition small_db : DB.t := DB.mk [alice; bob] [alice_task] [].

Definition blastn_post : Request.t :=
  Request.mk POST (Form.mk (Some "blastn") (Some "nt") (Some "ACGT")).

(** Stand-ins for [json.dumps] and [json.loads] that only know the empty
    list. *)
Definition json_dumps_empty (parsed_results : list dict) : string := "[]".

Definition json_loads_empty (text : string) : result (list dict) := Return [].


(** The type of the value under a key, [None] when the key is absent. *)
Definition field_type (e : dict) (key : string) : option string :=
  option_map type_name (dict_get e key).

(** Stand-ins for [json.dumps] and [json.loads] that know the entries of
    [one_record] under one text. *)
Definition json_dumps_one (parsed_results : list dict) : string :=
  "[{clone X, 100}, {clone X, 80}]".

Definition json_loads_one (text : string) : result (list dict) :=
  if String.eqb text "[{clone X, 100}, {clone X, 80}]"
  then Return (nesting_order one_record)
  else Raised (PyExc "JSONDecodeError" "Expecting value").

Definition bob_task : Task.t :=
  Task.mk 2 "blastp_nr_20240101_120500" "blastp" "nr" "MKV" None 2.

Definition busy_db : DB.t := DB.mk [alice; bob] [alice_task; bob_task] [].

Definition carol_form : Credentials.t := Credentials.mk (Some "carol") (Some "pw").

Definition alice_form : Credentials.t := Credentials.mk (Some "alice") (Some "secret").

Definition no_hits : list Blast.t := [Blast.mk []; Blast.mk [Alignment.mk "empty" 10 []]].

(** The values of a 64-bit signed INTEGER column. *)
Definition sqlite_integer (z : Z) : Prop := (- 2 ^ 63 <= z < 2 ^ 63)%Z.





(** ** The loops, as list functions *)

Lemma for_hsp_spec (a : Alignment.t) (hsps : list HSP.t) (acc : list dict) :
  for_hsp a hsps acc = (acc ++ map (entry a) hsps)%list.
Proof.
  revert acc; induction hsps as [|h hsps IH]; intros acc; simpl.
  - now rewrite app_nil_r.
  - rewrite IH, <- app_assoc. reflexivity.
Qed.

Lemma for_alignment_spec (alignments : list Alignment.t) (acc : list dict) :
  for_alignment alignments acc
  = (acc ++ flat_map (fun a => map (entry a) (Alignment.hsps a)) alignments)%list.
Proof.
  revert acc; induction alignments as [|a rest IH]; intros acc; simpl.
  - now rewrite app_nil_r.
  - rewrite IH, for_hsp_spec, <- app_assoc. reflexivity.
Qed.

Lemma for_blast_record_spec (g : generator Blast.t) (acc : list dict) :
  for_blast_record g acc
  = match raises g with
    | Some e => Raised e
    | None => Return (acc ++ nesting_order (yielded g))%list
    end.
Proof.
  revert acc; induction g as [|r rest IH|e]; intros acc; simpl.
  - now rewrite app_nil_r.
  - rewrite IH. destruct (raises rest); [reflexivity|].
    rewrite for_alignment_spec, <- app_assoc. reflexivity.
  - reflexivity.
Qed.

Lemma raises_iter {A : Type} (l : list A) : raises (iter l) = None.
Proof. induction l; simpl; auto. Qed.

Lemma yielded_iter {A : Type} (l : list A) : yielded (iter l) = l.
Proof. induction l; simpl; congruence. Qed.

Lemma nesting_order_app (r1 r2 : list Blast.t) :
  nesting_order (r1 ++ r2) = (nesting_order r1 ++ nesting_order r2)%list.
Proof. unfold nesting_order. apply flat_map_app. Qed.

Lemma length_flat_map {A B : Type} (f : A -> list B) (l : list A) :
  List.length (flat_map f l) = list_sum (map (fun x => List.length (f x)) l).
Proof.
  induction l as [|x l IH]; simpl; [reflexivity|].
  rewrite length_app, IH. reflexivity.
Qed.

Lemma length_record_entries (r : Blast.t) :
  List.length (flat_map (fun a => map (entry a) (Alignment.hsps a)) (Blast.alignments r))
  = record_hsp_count r.
Proof.
  rewrite length_flat_map. unfold record_hsp_count. f_equal.
  apply map_ext. intros a. unfold hsp_count. apply length_map.
Qed.

Lemma length_nesting_order (records : list Blast.t) :
  List.length (nesting_order records) = report_hsp_count records.
Proof.
  unfold nesting_order, report_hsp_count. rewrite length_flat_map. f_equal.
  apply map_ext. exact length_record_entries.
Qed.

Lemma In_nesting_order (records : list Blast.t) (e : dict) :
  In e (nesting_order records) <->
  exists r a h, In r records /\ In a (Blast.alignments r)
                /\ In h (Alignment.hsps a) /\ e = entry a h.
Proof.
  unfold nesting_order. rewrite in_flat_map. split.
  - intros (r & Hr & He). apply in_flat_map in He. destruct He as (a & Ha & He).
    apply in_map_iff in He. destruct He as (h & <- & Hh). now exists r, a, h.
  - intros (r & a & h & Hr & Ha & Hh & ->). exists r. split; [assumption|].
    apply in_flat_map. exists a. split; [assumption|]. now apply in_map.
Qed.

(** *** Positions *)

Lemma nth_error_flat_map {A B : Type} (f : A -> list B) (l : list A)
    (i m : nat) (a : A) (b : B) :
  nth_error l i = Some a ->
  nth_error (f a) m = Some b ->
  nth_error (flat_map f l)
            (list_sum (map (fun x => List.length (f x)) (firstn i l)) + m) = Some b.
Proof.
  revert i; induction l as [|x l IH]; intros [|i] Hi Hm; simpl in *; try discriminate.
  - injection Hi as ->. rewrite nth_error_app1; [assumption|].
    apply nth_error_Some. congruence.
  - rewrite nth_error_app2 by lia.
    replace (List.length (f x) + _ + m - List.length (f x))
      with (list_sum (map (fun x => List.length (f x)) (firstn i l)) + m) by lia.
    now apply IH.
Qed.

Lemma list_sum_firstn_le (l : list nat) (n : nat) :
  list_sum (firstn n l) <= list_sum l.
Proof.
  revert n; induction l as [|x l IH]; intros [|n]; simpl; try lia.
  specialize (IH n). lia.
Qed.

Lemma list_sum_firstn_S (l : list nat) (n x : nat) :
  nth_error l n = Some x ->
  list_sum (firstn (S n) l) = list_sum (firstn n l) + x.
Proof.
  revert n; induction l as [|y l IH]; intros [|n] H; try discriminate.
  - simpl in *. injection H as ->. lia.
  - simpl in H. specialize (IH n H). simpl in *. lia.
Qed.

Lemma list_sum_firstn_mono (l : list nat) (n m : nat) :
  n <= m -> list_sum (firstn n l) <= list_sum (firstn m l).
Proof.
  revert n m; induction l as [|x l IH]; intros [|n] [|m] H; simpl; try lia.
  specialize (IH n m). lia.
Qed.

Lemma hsp_at_inv (records : list Blast.t) (i j k : nat) (a : Alignment.t) (h : HSP.t) :
  hsp_at records i j k = Some (a, h) ->
  exists r, nth_error records i = Some r
            /\ nth_error (Blast.alignments r) j = Some a
            /\ nth_error (Alignment.hsps a) k = Some h.
Proof.
  unfold hsp_at. intros H.
  destruct (nth_error records i) as [r|]; [|discriminate].
  destruct (nth_error (Blast.alignments r) j) as [a'|] eqn:Ha; [|discriminate].
  destruct (nth_error (Alignment.hsps a') k) as [h'|] eqn:Hh; [|discriminate].
  injection H as -> ->. now exists r.
Qed.

Lemma position_unfold (records : list Blast.t) (i j k : nat) (r : Blast.t) :
  nth_error records i = Some r ->
  position records i j k
  = list_sum (firstn i (map record_hsp_count records))
    + list_sum (firstn j (map hsp_count (Blast.alignments r))) + k.
Proof.
  intros Hr. unfold position, report_hsp_count.
  rewrite (nth_error_nth _ _ _ Hr), !firstn_map. reflexivity.
Qed.

Lemma position_correct (records : list Blast.t) (i j k : nat)
    (a : Alignment.t) (h : HSP.t) :
  hsp_at records i j k = Some (a, h) ->
  nth_error (nesting_order records) (position records i j k) = Some (entry a h).
Proof.
  intros H. destruct (hsp_at_inv _ _ _ _ _ _ H) as (r & Hr & Ha & Hh).
  unfold position. rewrite (nth_error_nth _ _ _ Hr), <- Nat.add_assoc.
  unfold nesting_order, report_hsp_count.
  rewrite <- (map_ext _ _ length_record_entries).
  apply nth_error_flat_map with (a := r); [assumption|].
  replace (map hsp_count (firstn j (Blast.alignments r)))
    with (map (fun x => List.length (map (entry x) (Alignment.hsps x)))
              (firstn j (Blast.alignments r))).
  - apply nth_error_flat_map with (a := a); [assumption|].
    now apply map_nth_error.
  - apply map_ext. intros x. apply length_map.
Qed.

Lemma position_lt_next (records : list Blast.t) (i j k : nat)
    (a : Alignment.t) (h : HSP.t) (r : Blast.t) :
  nth_error records i = Some r ->
  nth_error (Blast.alignments r) j = Some a ->
  nth_error (Alignment.hsps a) k = Some h ->
  position records i j k
  < list_sum (firstn i (map record_hsp_count records))
    + list_sum (firstn (S j) (map hsp_count (Blast.alignments r)))
  /\ list_sum (firstn (S j) (map hsp_count (Blast.alignments r)))
     <= record_hsp_count r.
Proof.
  intros Hr Ha Hh. rewrite (position_unfold _ _ _ _ _ Hr). split.
  - rewrite (list_sum_firstn_S _ j (hsp_count a)) by now apply map_nth_error.
    assert (k < hsp_count a) by (apply nth_error_Some; unfold hsp_count; congruence).
    lia.
  - apply list_sum_firstn_le.
Qed.

Lemma position_mono (records : list Blast.t) (i j k i' j' k' : nat)
    (a a' : Alignment.t) (h h' : HSP.t) :
  hsp_at records i j k = Some (a, h) ->
  hsp_at records i' j' k' = Some (a', h') ->
  before i j k i' j' k' ->
  position records i j k < position records i' j' k'.
Proof.
  intros H H' Hlt.
  destruct (hsp_at_inv _ _ _ _ _ _ H) as (r & Hr & Ha & Hh).
  destruct (hsp_at_inv _ _ _ _ _ _ H') as (r' & Hr' & Ha' & Hh').
  destruct (position_lt_next _ _ _ _ _ _ _ Hr Ha Hh) as [Hnext Hrec].
  rewrite (position_unfold _ i' j' k' _ Hr').
  destruct Hlt as [Hi | [-> [Hj | [-> Hk]]]].
  - pose proof (list_sum_firstn_S _ i _ (map_nth_error record_hsp_count _ _ Hr)) as HS.
    pose proof (list_sum_firstn_mono (map record_hsp_count records) (S i) i') as Hm.
    lia.
  - rewrite Hr in Hr'. injection Hr' as <-.
    pose proof (list_sum_firstn_mono (map hsp_count (Blast.alignments r)) (S j) j').
    lia.
  - rewrite (position_unfold _ _ _ _ _ Hr).
    rewrite Hr in Hr'. injection Hr' as <-. lia.
Qed.

(** ** The normaliser *)

Section Normalizer.

Variable NCBIXML_parse : string -> generator Blast.t.

(** What the function returns, whatever the parser does: the exception
    the generator ends with, or the entries of everything it yielded. *)
Lemma parse_blast_results_spec (blast_results : string) :
  parse_blast_results NCBIXML_parse blast_results
  = match raises (NCBIXML_parse blast_results) with
    | Some e => Raised e
    | None => Return (nesting_order (yielded (NCBIXML_parse blast_results)))
    end.
Proof. unfold parse_blast_results. now rewrite for_blast_record_spec. Qed.

Lemma parse_blast_results_report (blast_results : string) (records : list Blast.t) :
  NCBIXML_parse blast_results = iter records ->
  parse_blast_results NCBIXML_parse blast_results = Return (nesting_order records).
Proof.
  intros H. rewrite parse_blast_results_spec, H, raises_iter, yielded_iter.
  reflexivity.
Qed.

(** C1: for a report of R records, record i with A_i alignments, alignment
    (i,j) with H_ij HSPs, the function returns a list of exactly the sum of
    the H_ij entries; every entry is the entry of some HSP of the report and
    every HSP of the report has its entry in the list. *)
Theorem C1_one_entry_per_hsp (blast_results : string) (records : list Blast.t) :
  NCBIXML_parse blast_results = iter records ->
  exists out,
    parse_blast_results NCBIXML_parse blast_results = Return out
    /\ List.length out = report_hsp_count records
    /\ forall e, In e out <->
         exists r a h, In r records /\ In a (Blast.alignments r)
                       /\ In h (Alignment.hsps a) /\ e = entry a h.
Proof.
  intros H. exists (nesting_order records). split; [|split].
  - now apply parse_blast_results_report.
  - apply length_nesting_order.
  - apply In_nesting_order.
Qed.

(** C2: the output lists the entries in nesting order (records, then the
    alignments of a record, then the HSPs of an alignment), duplicates
    included: it is the nested concatenation, the HSP at coordinates
    (i,j,k) sits at its position, positions grow with the coordinates, and
    in particular every HSP of (record 0, alignment 0) comes before every
    HSP of (record 0, alignment 1). *)
Theorem C2_nesting_order (blast_results : string) (records : list Blast.t) :
  NCBIXML_parse blast_results = iter records ->
  exists out,
    parse_blast_results NCBIXML_parse blast_results = Return out
    /\ out = nesting_order records
    /\ (forall i j k a h, hsp_at records i j k = Some (a, h) ->
          nth_error out (position records i j k) = Some (entry a h))
    /\ (forall i j k a h i' j' k' a' h',
          hsp_at records i j k = Some (a, h) ->
          hsp_at records i' j' k' = Some (a', h') ->
          before i j k i' j' k' ->
          position records i j k < position records i' j' k')
    /\ (forall k1 k2 a1 h1 a2 h2,
          hsp_at records 0 0 k1 = Some (a1, h1) ->
          hsp_at records 0 1 k2 = Some (a2, h2) ->
          exists p1 p2, p1 < p2
            /\ nth_error out p1 = Some (entry a1 h1)
            /\ nth_error out p2 = Some (entry a2 h2)).
Proof.
  intros H. exists (nesting_order records).
  split; [now apply parse_blast_results_report|].
  split; [reflexivity|]. split; [|split].
  - intros. now apply position_correct.
  - intros. eapply position_mono; eassumption.
  - intros k1 k2 a1 h1 a2 h2 H1 H2.
    exists (position records 0 0 k1), (position records 0 1 k2).
    split; [|split].
    + eapply position_mono; [exact H1|exact H2|]. unfold before. lia.
    + now apply position_correct.
    + now apply position_correct.
Qed.

(** C3: the entry of an HSP holds the HSP's score, expect, query_start,
    query_end, query, match and sbjct and the enclosing alignment's title
    and length exactly as they are in the report, under the function's nine
    keys and nothing else. *)
Theorem C3_fields_copied (blast_results : string) (records : list Blast.t)
    (i j k : nat) (a : Alignment.t) (h : HSP.t) :
  NCBIXML_parse blast_results = iter records ->
  hsp_at records i j k = Some (a, h) ->
  exists out e,
    parse_blast_results NCBIXML_parse blast_results = Return out
    /\ nth_error out (position records i j k) = Some e
    /\ dict_keys e = entry_keys
    /\ dict_get e "title" = Some (VStr (Alignment.title a))
    /\ dict_get e "length" = Some (VInt (Alignment.length a))
    /\ dict_get e "score" = Some (VFloat (HSP.score h))
    /\ dict_get e "e_value" = Some (VFloat (HSP.expect h))
    /\ dict_get e "query_start" = Some (VInt (HSP.query_start h))
    /\ dict_get e "query_end" = Some (VInt (HSP.query_end h))
    /\ dict_get e "qseq" = Some (VStr (HSP.query h))
    /\ dict_get e "match" = Some (VStr (HSP.match_ h))
    /\ dict_get e "hseq" = Some (VStr (HSP.sbjct h)).
Proof.
  intros H Hat. exists (nesting_order records), (entry a h).
  split; [now apply parse_blast_results_report|].
  split; [now apply position_correct|].
  repeat split.
Qed.


(** C7: a report with zero records gives the empty list, not an error. *)
Theorem C7_zero_records (blast_results : string) :
  NCBIXML_parse blast_results = iter [] ->
  parse_blast_results NCBIXML_parse blast_results = Return [].
Proof. intros H. now rewrite (parse_blast_results_report _ _ H). Qed.

(** C9: one record, one alignment titled "Homo sapiens clone X" of length
    500, two HSPs with scores 100 and 80: the function returns exactly two
    entries, both with that title and length, with scores 100 then 80. *)
Theorem C9_clone_X_example (blast_results : string) (h1 h2 : HSP.t) :
  HSP.score h1 = float_of_Z 100 ->
  HSP.score h2 = float_of_Z 80 ->
  NCBIXML_parse blast_results
  = iter [Blast.mk [Alignment.mk "Homo sapiens clone X" 500 [h1; h2]]] ->
  exists e1 e2,
    parse_blast_results NCBIXML_parse blast_results = Return [e1; e2]
    /\ dict_get e1 "title" = Some (VStr "Homo sapiens clone X")
    /\ dict_get e2 "title" = Some (VStr "Homo sapiens clone X")
    /\ dict_get e1 "length" = Some (VInt 500)
    /\ dict_get e2 "length" = Some (VInt 500)
    /\ dict_get e1 "score" = Some (VFloat (float_of_Z 100))
    /\ dict_get e2 "score" = Some (VFloat (float_of_Z 80)).
Proof.
  intros H1 H2 H.
  set (a := Alignment.mk "Homo sapiens clone X" 500 [h1; h2]) in *.
  exists (entry a h1), (entry a h2).
  split; [now rewrite (parse_blast_results_report _ _ H)|].
  simpl. rewrite H1, H2. repeat split.
Qed.

(** C10: the entries of a report whose records are r1 followed by r2 are
    the entries of r1 followed by the entries of r2. *)
Theorem C10_concatenation (t1 t2 t12 : string) (r1 r2 : list Blast.t) :
  NCBIXML_parse t1 = iter r1 ->
  NCBIXML_parse t2 = iter r2 ->
  NCBIXML_parse t12 = iter (r1 ++ r2) ->
  exists out1 out2,
    parse_blast_results NCBIXML_parse t1 = Return out1
    /\ parse_blast_results NCBIXML_parse t2 = Return out2
    /\ parse_blast_results NCBIXML_parse t12 = Return (out1 ++ out2)%list.
Proof.
  intros H1 H2 H12. exists (nesting_order r1), (nesting_order r2).
  rewrite (parse_blast_results_report _ _ H1), (parse_blast_results_report _ _ H2),
    (parse_blast_results_report _ _ H12), nesting_order_app.
  repeat split.
Qed.

End Normalizer.


(** C6 as the specification words it fails: the entries have no fields
    named query_sequence, match_line and subject_sequence. *)
Lemma C6_spec_field_names_counterexample :
  exists e rest,
    parse_blast_results (parse_only "report" (iter one_record)) "report"
    = Return (e :: rest)
    /\ dict_keys e <> spec_field_names
    /\ dict_get e "query_sequence" = None
    /\ dict_get e "match_line" = None
    /\ dict_get e "subject_sequence" = None.
Proof.
  eexists; eexists. split; [reflexivity|].
  split; [discriminate|]. repeat split.
Qed.

Section EntryShape.

Variable NCBIXML_parse : string -> generator Blast.t.

(** C6 (amended): every entry the function returns is a flat dict with
    exactly the keys title, length, score, e_value, query_start, query_end,
    qseq, match and hseq, in that order; title, qseq, match and hseq are
    strings, length, query_start and query_end integers, score and e_value
    floats. *)
Theorem C6_entry_shape (blast_results : string) (out : list dict) (e : dict) :
  parse_blast_results NCBIXML_parse blast_results = Return out ->
  In e out ->
  dict_keys e = entry_keys
  /\ field_type e "title" = Some "str"
  /\ field_type e "length" = Some "int"
  /\ field_type e "score" = Some "float"
  /\ field_type e "e_value" = Some "float"
  /\ field_type e "query_start" = Some "int"
  /\ field_type e "query_end" = Some "int"
  /\ field_type e "qseq" = Some "str"
  /\ field_type e "match" = Some "str"
  /\ field_type e "hseq" = Some "str".
Proof.
  rewrite parse_blast_results_spec.
  destruct (raises (NCBIXML_parse blast_results)); [discriminate|].
  intros [= <-] Hin. apply In_nesting_order in Hin.
  destruct Hin as (r & a & h & _ & _ & _ & ->). repeat split.
Qed.

End EntryShape.

(** ** The handlers *)

Section Handlers.

Variable NCBIXML_parse : string -> generator Blast.t.
Variable NCBIWWW_qblast :
  option string -> option string -> option string -> result string.
Variable json_dumps : list dict -> string.
Variable json_loads : string -> result (list dict).

(** The [try] body stops at the first of its two calls that raises, with the
    store as it found it. *)
Lemma blast_try_raises (user : User.t) (program database sequence : option string)
    (now : string) (db : DB.t) :
  (exists e, NCBIWWW_qblast program database sequence = Raised e)
  \/ (exists text e,
        NCBIWWW_qblast program database sequence = Return text
        /\ parse_blast_results NCBIXML_parse text = Raised e) ->
  exists e,
    blast_try NCBIXML_parse NCBIWWW_qblast json_dumps user program database
              sequence now db
    = (Raised e, db).
Proof.
  unfold blast_try, bind, call.
  intros [(e & ->) | (text & e & -> & ->)]; exists e; reflexivity.
Qed.

(** C5: when the fetch raises, or the fetch succeeds and the normaliser
    raises, the store after the request is the store before it: no task row
    is written and nothing is left in the session; a logged-in user who
    posted the form gets the form back with the error flashed. *)
Theorem C5_failed_submission_persists_nothing (current_user : option User.t)
    (request : Request.t) (now : string) (db : DB.t) :
  let data := Request.form request in
  (exists e,
     NCBIWWW_qblast (Form.program data) (Form.database data) (Form.sequence data)
     = Raised e)
  \/ (exists text e,
        NCBIWWW_qblast (Form.program data) (Form.database data) (Form.sequence data)
        = Return text
        /\ parse_blast_results NCBIXML_parse text = Raised e) ->
  snd (blast NCBIXML_parse NCBIWWW_qblast json_dumps current_user request now db) = db
  /\ forall user, current_user = Some user -> Request.method request = POST ->
       exists e,
         fst (blast NCBIXML_parse NCBIWWW_qblast json_dumps current_user request now db)
         = Reply.mk [("发生错误: " ++ str_exc e, "danger")] (render_blast true).
Proof.
  intros data H. subst data. unfold blast. cbv zeta. split.
  - destruct current_user as [user|]; [|reflexivity].
    destruct (Request.method request); [reflexivity|].
    destruct (blast_try_raises user _ _ _ now db H) as (e & ->). reflexivity.
  - intros user -> ->.
    destruct (blast_try_raises user _ _ _ now db H) as (e & ->).
    exists e. reflexivity.
Qed.



End Handlers.

(** The doubles 100.0 and 80.0: 53-bit mantissa, exponent -46. *)
Example float_100_80 :
  float_of_Z 100 = S754_finite false 7036874417766400 (-46)
  /\ float_of_Z 80 = S754_finite false 5629499534213120 (-46).
Proof. split; reflexivity. Qed.

(** ** The handlers on a small store *)

(** A submission that goes through writes one row, owned by the submitter,
    with the next id and the serialised entries. *)
Example blast_success_persists :
  blast (parse_only "report" (iter one_record)) (qblast_const (Return "report"))
        json_dumps_empty (Some bob) blastn_post "20240102_093000" small_db
  = (Reply.mk [("BLAST成功!", "success")] (redirect_user_index "bob"),
     DB.mk [alice; bob]
           [alice_task;
            Task.mk 2 "blastn_nt_20240102_093000" "blastn" "nt" "ACGT" (Some "[]") 2]
           []).
Proof. reflexivity. Qed.

(** A second submission under a task name already taken fails at the
    commit and writes no row. *)
Example blast_duplicate_taskname :
  DB.tasks
    (snd (blast (parse_only "report" (iter one_record)) (qblast_const (Return "report"))
                json_dumps_empty (Some bob) blastn_post "20240101_120000" small_db))
  = [alice_task].
Proof. reflexivity. Qed.

(** The owner sees the task; another user asking under the owner's name is
    sent back to their own page. *)
Example results_owner :
  results json_loads_empty (Some alice) "alice" "blastn_nt_20240101_120000" small_db
  = Reply.mk [] (render_results alice_task []).
Proof. reflexivity. Qed.

Example results_other_user :
  results json_loads_empty (Some bob) "alice" "blastn_nt_20240101_120000" small_db
  = Reply.mk [("无权访问该任务的结果！", "danger")] (redirect_user_index "bob").
Proof. reflexivity. Qed.

Example results_unknown_task :
  results json_loads_empty (Some bob) "bob" "blastn_nt_20240101_120000" small_db
  = Reply.mk [] abort_404.
Proof. reflexivity. Qed.

(** The entries of the three-record report, in order. *)
Example two_records_entries :
  parse_blast_results (parse_only "report" (iter two_records)) "report"
  = Return [entry clone_X hsp_100; entry clone_X hsp_80; entry clone_Y hsp_80;
            entry clone_Y hsp_80; entry clone_X hsp_100; entry clone_X hsp_80].
Proof. reflexivity. Qed.

(** ** The theorems at concrete reports and requests *)

Lemma C1_witness :
  parse_only "report" (iter two_records) "report" = iter two_records
  /\ exists out,
       parse_blast_results (parse_only "report" (iter two_records)) "report" = Return out
       /\ List.length out = 6.
Proof.
  split; [reflexivity|].
  destruct (C1_one_entry_per_hsp (parse_only "report" (iter two_records))
              "report" two_records eq_refl) as (out & Hout & Hlen & _).
  exists out. split; [exact Hout|exact Hlen].
Defined.

Lemma C2_witness :
  parse_only "report" (iter two_records) "report" = iter two_records
  /\ exists out p1 p2,
       parse_blast_results (parse_only "report" (iter two_records)) "report" = Return out
       /\ p1 < p2
       /\ nth_error out p1 = Some (entry clone_X hsp_80)
       /\ nth_error out p2 = Some (entry clone_Y hsp_80).
Proof.
  split; [reflexivity|].
  destruct (C2_nesting_order (parse_only "report" (iter two_records))
              "report" two_records eq_refl) as (out & Hout & _ & _ & _ & Hfirst).
  destruct (Hfirst 1 0 clone_X hsp_80 clone_Y hsp_80 eq_refl eq_refl)
    as (p1 & p2 & Hlt & H1 & H2).
  exists out, p1, p2. repeat split; assumption.
Defined.

Lemma C3_witness :
  parse_only "report" (iter two_records) "report" = iter two_records
  /\ hsp_at two_records 2 1 0 = Some (clone_X, hsp_100)
  /\ exists out e,
       parse_blast_results (parse_only "report" (iter two_records)) "report" = Return out
       /\ nth_error out 4 = Some e
       /\ dict_get e "title" = Some (VStr "Homo sapiens clone X")
       /\ dict_get e "match" = Some (VStr "|||| ||||").
Proof.
  split; [reflexivity|]. split; [reflexivity|].
  destruct (C3_fields_copied (parse_only "report" (iter two_records))
              "report" two_records 2 1 0 clone_X hsp_100 eq_refl eq_refl)
    as (out & e & Hout & Hnth & _ & Htitle & _ & _ & _ & _ & _ & _ & Hmatch & _).
  exists out, e. repeat split; assumption.
Defined.


Lemma C6_witness :
  parse_blast_results (parse_only "report" (iter one_record)) "report"
  = Return [entry clone_X hsp_100; entry clone_X hsp_80]
  /\ In (entry clone_X hsp_100) [entry clone_X hsp_100; entry clone_X hsp_80]
  /\ field_type (entry clone_X hsp_100) "score" = Some "float".
Proof.
  split; [reflexivity|]. split; [left; reflexivity|].
  apply (C6_entry_shape (parse_only "report" (iter one_record)) "report"
           [entry clone_X hsp_100; entry clone_X hsp_80] (entry clone_X hsp_100)
           eq_refl (or_introl eq_refl)).
Defined.

Lemma C7_witness :
  parse_only "no hits" (iter []) "no hits" = iter []
  /\ parse_blast_results (parse_only "no hits" (iter [])) "no hits" = Return [].
Proof.
  split; [reflexivity|].
  apply (C7_zero_records (parse_only "no hits" (iter [])) "no hits" eq_refl).
Defined.

Lemma C9_witness :
  HSP.score hsp_100 = float_of_Z 100
  /\ HSP.score hsp_80 = float_of_Z 80
  /\ exists e1 e2,
       parse_blast_results (parse_only "report" (iter one_record)) "report"
       = Return [e1; e2]
       /\ dict_get e1 "score" = Some (VFloat (float_of_Z 100))
       /\ dict_get e2 "score" = Some (VFloat (float_of_Z 80)).
Proof.
  split; [reflexivity|]. split; [reflexivity|].
  destruct (C9_clone_X_example (parse_only "report" (iter one_record)) "report"
              hsp_100 hsp_80 eq_refl eq_refl eq_refl)
    as (e1 & e2 & Hout & _ & _ & _ & _ & H1 & H2).
  exists e1, e2. repeat split; assumption.
Defined.

Lemma C10_witness :
  exists out1 out2,
    parse_blast_results
      (parse_either "a" (iter one_record) "b" (iter two_records)
                    (iter (one_record ++ two_records))) "a" = Return out1
    /\ parse_blast_results
         (parse_either "a" (iter one_record) "b" (iter two_records)
                       (iter (one_record ++ two_records))) "b" = Return out2
    /\ parse_blast_results
         (parse_either "a" (iter one_record) "b" (iter two_records)
                       (iter (one_record ++ two_records))) "ab"
       = Return (out1 ++ out2)%list.
Proof.
  apply (C10_concatenation
           (parse_either "a" (iter one_record) "b" (iter two_records)
                         (iter (one_record ++ two_records)))
           "a" "b" "ab" one_record two_records eq_refl eq_refl eq_refl).
Defined.

Lemma C5_witness :
  parse_blast_results (parse_only "report" (iter one_record)) "<html>busy</html>"
  = Raised (PyExc "ValueError" "Your XML file did not start with <?xml")
  /\ snd (blast (parse_only "report" (iter one_record))
                (qblast_const (Return "<html>busy</html>"))
                json_dumps_empty (Some alice) blastn_post "20240101_120000" small_db)
     = small_db.
Proof.
  split; [reflexivity|].
  apply (C5_failed_submission_persists_nothing
           (parse_only "report" (iter one_record))
           (qblast_const (Return "<html>busy</html>"))
           json_dumps_empty (Some alice) blastn_post "20240101_120000" small_db).
  right. exists "<html>busy</html>".
  exists (PyExc "ValueError" "Your XML file did not start with <?xml").
  split; reflexivity.
Defined.


(** ** The store: inserts, keys and lookups *)

Lemma NoDup_snoc {A : Type} (l : list A) (x : A) :
  NoDup l -> ~ In x l -> NoDup (l ++ [x]).
Proof.
  induction l as [|y l IH]; simpl; intros Hnd Hx.
  - constructor; [intros []|constructor].
  - inversion Hnd as [|? ? Hy Hl]; subst. constructor.
    + rewrite in_app_iff. simpl. intros [H|[H|[]]]; [now apply Hy|].
      apply Hx. now left.
    + apply IH; [assumption|]. intros H. apply Hx. now right.
Qed.

Lemma next_id_fresh (tasks : list Task.t) (t : Task.t) :
  In t tasks -> (Task.id t < next_id tasks)%Z.
Proof.
  unfold next_id. induction tasks as [|x tasks IH]; simpl; [intros []|].
  intros [->|H]; [lia|]. specialize (IH H). lia.
Qed.

Lemma next_user_id_fresh (users : list User.t) (u : User.t) :
  In u users -> (User.id u < next_user_id users)%Z.
Proof.
  unfold next_user_id. induction users as [|x users IH]; simpl; [intros []|].
  intros [->|H]; [lia|]. specialize (IH H). lia.
Qed.

Lemma taskname_free (name : string) (tasks : list Task.t) :
  existsb (fun row => String.eqb (Task.taskname row) name) tasks = false ->
  ~ In name (map Task.taskname tasks).
Proof.
  intros Hfree Hin. apply in_map_iff in Hin. destruct Hin as (t & <- & Ht).
  assert (existsb (fun row => String.eqb (Task.taskname row) (Task.taskname t)) tasks
          = true) as Htrue.
  { apply existsb_exists. exists t. split; [assumption|apply String.eqb_refl]. }
  congruence.
Qed.

Lemma insert_task_inv (t : NewTask.t) (tasks tasks' : list Task.t) :
  insert_task t tasks = Return tasks' ->
  exists program database sequence,
    NewTask.program t = Some program
    /\ NewTask.database t = Some database
    /\ NewTask.sequence t = Some sequence
    /\ ~ In (NewTask.taskname t) (map Task.taskname tasks)
    /\ tasks' = (tasks ++
        [Task.mk (next_id tasks) (NewTask.taskname t) program database sequence
                 (NewTask.result t) (NewTask.user_id t)])%list.
Proof.
  unfold insert_task.
  destruct (NewTask.program t) as [p|]; [|discriminate].
  destruct (NewTask.database t) as [d|]; [|discriminate].
  destruct (NewTask.sequence t) as [s|]; [|discriminate].
  destruct (existsb _ tasks) eqn:Hfree; [discriminate|].
  intros [= <-]. exists p, d, s. repeat split. now apply taskname_free.
Qed.

Lemma insert_task_unique (t : NewTask.t) (tasks tasks' : list Task.t) :
  insert_task t tasks = Return tasks' ->
  NoDup (map Task.id tasks) -> NoDup (map Task.taskname tasks) ->
  NoDup (map Task.id tasks') /\ NoDup (map Task.taskname tasks').
Proof.
  intros H Hid Hname. apply insert_task_inv in H.
  destruct H as (p & d & s & _ & _ & _ & Hfree & ->).
  rewrite !map_app. simpl. split; apply NoDup_snoc; try assumption.
  intros Hin. apply in_map_iff in Hin. destruct Hin as (x & Hx & Hin).
  apply next_id_fresh in Hin. lia.
Qed.

(** A flush only appends rows, one per pending object. *)
Lemma flush_appends (pending : list NewTask.t) (tasks tasks' : list Task.t) :
  flush pending tasks = Return tasks' ->
  exists new, tasks' = (tasks ++ new)%list /\ List.length new = List.length pending.
Proof.
  revert tasks; induction pending as [|t pending IH]; simpl; intros tasks H.
  - injection H as <-. exists []. now rewrite app_nil_r.
  - destruct (insert_task t tasks) as [tasks1|] eqn:Hins; [|discriminate].
    apply insert_task_inv in Hins. destruct Hins as (p & d & s & _ & _ & _ & _ & ->).
    destruct (IH _ H) as (new & -> & Hlen).
    eexists. rewrite <- app_assoc. split; [reflexivity|]. simpl. now rewrite Hlen.
Qed.

Lemma flush_unique (pending : list NewTask.t) (tasks tasks' : list Task.t) :
  flush pending tasks = Return tasks' ->
  NoDup (map Task.id tasks) -> NoDup (map Task.taskname tasks) ->
  NoDup (map Task.id tasks') /\ NoDup (map Task.taskname tasks').
Proof.
  revert tasks; induction pending as [|t pending IH]; simpl; intros tasks H Hid Hname.
  - injection H as <-. now split.
  - destruct (insert_task t tasks) as [tasks1|] eqn:Hins; [|discriminate].
    destruct (insert_task_unique _ _ _ Hins Hid Hname) as [Hid1 Hname1].
    now apply (IH tasks1).
Qed.

(** Looking a row up by a key that is unique finds the row. *)
Lemma find_unique {A K : Type} (key : A -> K) (eqb : K -> K -> bool) (l : list A) (x : A) :
  (forall a b, eqb a b = true <-> a = b) ->
  NoDup (map key l) -> In x l ->
  find (fun y => eqb (key y) (key x)) l = Some x.
Proof.
  intros Heqb. induction l as [|y l IH]; simpl; [intros _ []|].
  intros Hnd Hin. inversion Hnd as [|? ? Hy Hl]; subst.
  destruct (eqb (key y) (key x)) eqn:E.
  - apply Heqb in E. destruct Hin as [->|Hin]; [reflexivity|].
    exfalso. apply Hy. rewrite E. now apply in_map.
  - destruct Hin as [->|Hin]; [|now apply IH].
    assert (eqb (key x) (key x) = true) by now apply Heqb. congruence.
Qed.

Lemma find_none_app {A : Type} (f : A -> bool) (l1 l2 : list A) :
  find f l1 = None -> find f (l1 ++ l2) = find f l2.
Proof.
  induction l1 as [|x l1 IH]; simpl; [reflexivity|].
  destruct (f x); [discriminate|exact IH].
Qed.

Lemma find_some_app {A : Type} (f : A -> bool) (l1 l2 : list A) (x : A) :
  find f l1 = Some x -> find f (l1 ++ l2) = Some x.
Proof.
  induction l1 as [|y l1 IH]; simpl; [discriminate|].
  destruct (f y); [trivial|exact IH].
Qed.

Lemma find_none_existsb {A : Type} (f : A -> bool) (l : list A) :
  existsb f l = false -> find f l = None.
Proof.
  induction l as [|x l IH]; simpl; [reflexivity|].
  destruct (f x); simpl; [discriminate|exact IH].
Qed.

Lemma filter_id {A : Type} (f : A -> bool) (l : list A) :
  (forall x, In x l -> f x = true) -> filter f l = l.
Proof.
  induction l as [|x l IH]; simpl; intros H; [reflexivity|].
  rewrite (H x (or_introl eq_refl)), IH; [reflexivity|].
  intros y Hy. apply H. now right.
Qed.

Lemma existsb_taken (name : string) (tasks : list Task.t) :
  In name (map Task.taskname tasks) ->
  existsb (fun row => String.eqb (Task.taskname row) name) tasks = true.
Proof.
  intros Hin. apply in_map_iff in Hin. destruct Hin as (t & <- & Ht).
  apply existsb_exists. exists t. split; [assumption|apply String.eqb_refl].
Qed.

Lemma existsb_free (name : string) (tasks : list Task.t) :
  ~ In name (map Task.taskname tasks) ->
  existsb (fun row => String.eqb (Task.taskname row) name) tasks = false.
Proof.
  intros Hfree. destruct (existsb _ tasks) eqn:E; [|reflexivity].
  exfalso. apply Hfree. apply existsb_exists in E. destruct E as (t & Ht & E).
  apply String.eqb_eq in E. subst name. now apply in_map.
Qed.

(** A flush whose last object violates a constraint writes nothing. *)
Lemma flush_last_rejected (pending : list NewTask.t) (t : NewTask.t) (tasks : list Task.t) :
  (forall rows, exists e, insert_task t (tasks ++ rows) = Raised e) ->
  exists e, flush (pending ++ [t]) tasks = Raised e.
Proof.
  revert tasks; induction pending as [|p pending IH]; simpl; intros tasks Hrej.
  - destruct (Hrej []) as (e & He). rewrite app_nil_r in He. rewrite He. now exists e.
  - destruct (insert_task p tasks) as [tasks1|e] eqn:Hins; [|now exists e].
    apply IH. intros rows. apply insert_task_inv in Hins.
    destruct Hins as (? & ? & ? & _ & _ & _ & _ & ->).
    rewrite <- app_assoc. apply Hrej.
Qed.

(** ** The submission handler beyond its error path *)

Section Submission.

Variable NCBIXML_parse : string -> generator Blast.t.
Variable NCBIWWW_qblast :
  option string -> option string -> option string -> result string.
Variable json_dumps : list dict -> string.
Variable json_loads : string -> result (list dict).

(** The [try] body leaves the user table alone and only ever appends to the
    task table; when it raises, the task table is as it was. *)
Lemma blast_try_tables (user : User.t) (program database sequence : option string)
    (now : string) (db : DB.t) :
  let r := blast_try NCBIXML_parse NCBIWWW_qblast json_dumps user program database
                     sequence now db in
  DB.users (snd r) = DB.users db
  /\ match fst r with
     | Return _ => exists new, DB.tasks (snd r) = (DB.tasks db ++ new)%list
     | Raised _ => DB.tasks (snd r) = DB.tasks db
     end.
Proof.
  unfold blast_try, bind, call, session_add, session_commit. cbv zeta.
  destruct (NCBIWWW_qblast program database sequence) as [text|e]; [|now split].
  destruct (parse_blast_results NCBIXML_parse text) as [entries|e]; [|now split].
  cbn [DB.pending DB.tasks DB.users].
  destruct (flush _ (DB.tasks db)) as [tasks'|e] eqn:Hflush; cbn; [|now split].
  split; [reflexivity|]. apply flush_appends in Hflush.
  destruct Hflush as (new & -> & _). now exists new.
Qed.

(** X3: whatever the request and the outcome, the submission handler leaves
    the user table as it is and every stored task row in place, in order:
    the task table afterwards is the one before with rows appended. *)
Theorem blast_keeps_rows (current_user : option User.t) (request : Request.t)
    (now : string) (db : DB.t) :
  DB.users (snd (blast NCBIXML_parse NCBIWWW_qblast json_dumps current_user request now db)) = DB.users db
  /\ exists new,
       DB.tasks (snd (blast NCBIXML_parse NCBIWWW_qblast json_dumps current_user request now db)) = (DB.tasks db ++ new)%list.
Proof.
  unfold blast.
  destruct current_user as [user|];
    [|split; [reflexivity|exists []; now rewrite app_nil_r]].
  destruct (Request.method request);
    [split; [reflexivity|exists []; now rewrite app_nil_r]|].
  cbv zeta.
  pose proof (blast_try_tables user (Form.program (Request.form request))
                (Form.database (Request.form request))
                (Form.sequence (Request.form request)) now db) as H.
  cbv zeta in H.
  destruct (blast_try _ _ _ _ _ _ _ _ _) as [[u|e] db']; cbn in *.
  - exact H.
  - destruct H as [Hu Ht]. split; [assumption|]. exists []. now rewrite app_nil_r.
Qed.

(** X4: a task row is written only together with the success answer: when
    the task table differs after the request, the user was logged in and is
    redirected to the own index with the success message flashed. *)
Theorem blast_row_only_on_success (current_user : option User.t)
    (request : Request.t) (now : string) (db : DB.t) :
  DB.tasks (snd (blast NCBIXML_parse NCBIWWW_qblast json_dumps current_user request now db)) <> DB.tasks db ->
  exists user,
    current_user = Some user
    /\ fst (blast NCBIXML_parse NCBIWWW_qblast json_dumps current_user request now db)
       = Reply.mk [("BLAST成功!", "success")] (redirect_user_index (User.username user)).
Proof.
  unfold blast.
  destruct current_user as [user|]; [|intros H; now elim H].
  destruct (Request.method request); [intros H; now elim H|].
  cbv zeta.
  pose proof (blast_try_tables user (Form.program (Request.form request))
                (Form.database (Request.form request))
                (Form.sequence (Request.form request)) now db) as H.
  cbv zeta in H.
  destruct (blast_try _ _ _ _ _ _ _ _ _) as [[u|e] db']; cbn in *.
  - intros _. now exists user.
  - destruct H as [_ Ht]. intros Hneq. now elim Hneq.
Qed.

(** The [try] body when the fetch and the parse go through: the task is
    added to the session and the session committed. *)
Lemma blast_try_commits (user : User.t) (program database sequence : option string)
    (now text : string) (entries : list dict) (db : DB.t) :
  NCBIWWW_qblast program database sequence = Return text ->
  parse_blast_results NCBIXML_parse text = Return entries ->
  blast_try NCBIXML_parse NCBIWWW_qblast json_dumps user program database sequence now db
  = session_commit
      (DB.mk (DB.users db) (DB.tasks db)
         (DB.pending db ++
          [NewTask.mk (formatted_taskname program database now) program database
                      sequence (Some (json_dumps entries)) (User.id user)])%list).
Proof.
  intros Hq Hp. unfold blast_try, bind, call, session_add. now rewrite Hq, Hp.
Qed.

(** The store and the answer after a submission that goes through. *)
Lemma blast_committed (user : User.t) (program database sequence now text : string)
    (entries : list dict) (db : DB.t) :
  NCBIWWW_qblast (Some program) (Some database) (Some sequence) = Return text ->
  parse_blast_results NCBIXML_parse text = Return entries ->
  DB.pending db = [] ->
  ~ In (formatted_taskname (Some program) (Some database) now)
       (map Task.taskname (DB.tasks db)) ->
  blast NCBIXML_parse NCBIWWW_qblast json_dumps (Some user)
        (Request.mk POST (Form.mk (Some program) (Some database) (Some sequence)))
        now db
  = (Reply.mk [("BLAST成功!", "success")] (redirect_user_index (User.username user)),
     DB.mk (DB.users db)
           (DB.tasks db ++
            [Task.mk (next_id (DB.tasks db))
                     (formatted_taskname (Some program) (Some database) now)
                     program database sequence (Some (json_dumps entries))
                     (User.id user)])%list
           []).
Proof.
  intros Hq Hp Hpending Hfree. unfold blast. cbn [Request.method Request.form
    Form.program Form.database Form.sequence].
  rewrite (blast_try_commits _ _ _ _ _ _ _ _ Hq Hp), Hpending.
  unfold session_commit. cbn [DB.pending DB.tasks DB.users app flush].
  unfold insert_task. cbn [NewTask.program NewTask.database NewTask.sequence
    NewTask.taskname NewTask.result NewTask.user_id].
  now rewrite (existsb_free _ _ Hfree).
Qed.

(** X5: a logged-in user posts a complete form, the fetch and the parse go
    through and the task name is not taken: exactly one row is appended,
    with the next id, the name built from program, database and time, the
    form's values, the serialised entries and the user's id as owner; the
    answer is the success redirect. *)
Theorem blast_success (user : User.t) (program database sequence now text : string)
    (entries : list dict) (db : DB.t) :
  NCBIWWW_qblast (Some program) (Some database) (Some sequence) = Return text ->
  parse_blast_results NCBIXML_parse text = Return entries ->
  DB.pending db = [] ->
  ~ In (formatted_taskname (Some program) (Some database) now)
       (map Task.taskname (DB.tasks db)) ->
  blast NCBIXML_parse NCBIWWW_qblast json_dumps (Some user)
        (Request.mk POST (Form.mk (Some program) (Some database) (Some sequence)))
        now db
  = (Reply.mk [("BLAST成功!", "success")] (redirect_user_index (User.username user)),
     DB.mk (DB.users db)
           (DB.tasks db ++
            [Task.mk (next_id (DB.tasks db))
                     (formatted_taskname (Some program) (Some database) now)
                     program database sequence (Some (json_dumps entries))
                     (User.id user)])%list
           []).
Proof. apply blast_committed. Qed.

(** X6: a submission whose task name (program, database and the second of
    the clock) is already in the task table fails at the commit although the
    fetch and the parse went through: the error is flashed, the form is
    rendered again and both tables are as before. *)
Theorem blast_taskname_taken (user : User.t) (request : Request.t)
    (now text : string) (entries : list dict) (db : DB.t) :
  let data := Request.form request in
  Request.method request = POST ->
  NCBIWWW_qblast (Form.program data) (Form.database data) (Form.sequence data)
  = Return text ->
  parse_blast_results NCBIXML_parse text = Return entries ->
  In (formatted_taskname (Form.program data) (Form.database data) now)
     (map Task.taskname (DB.tasks db)) ->
  let r := blast NCBIXML_parse NCBIWWW_qblast json_dumps (Some user) request now db in
  (exists e, fst r = Reply.mk [("发生错误: " ++ str_exc e, "danger")] (render_blast true))
  /\ DB.tasks (snd r) = DB.tasks db
  /\ DB.users (snd r) = DB.users db.
Proof.
  intros data Hpost Hq Hp Htaken. subst data. unfold blast. rewrite Hpost. cbv zeta.
  rewrite (blast_try_commits _ _ _ _ _ _ _ _ Hq Hp).
  unfold session_commit. cbn [DB.pending DB.tasks DB.users].
  destruct (flush_last_rejected (DB.pending db)
              (NewTask.mk (formatted_taskname (Form.program (Request.form request))
                             (Form.database (Request.form request)) now)
                          (Form.program (Request.form request))
                          (Form.database (Request.form request))
                          (Form.sequence (Request.form request))
                          (Some (json_dumps entries)) (User.id user))
              (DB.tasks db)) as (e & He).
  - intros rows. unfold insert_task. cbn [NewTask.program NewTask.database
      NewTask.sequence NewTask.taskname].
    destruct (Form.program _); [|eexists; reflexivity].
    destruct (Form.database _); [|eexists; reflexivity].
    destruct (Form.sequence _); [|eexists; reflexivity].
    rewrite existsb_taken; [eexists; reflexivity|].
    rewrite map_app, in_app_iff. now left.
  - rewrite He. cbn. split; [now exists e|]. now split.
Qed.

(** X7: a submission that lacks one of the three form fields never stores
    a task, whatever the remote service and the parser answer: the tables
    are as before and a logged-in user gets the error flashed. *)
Theorem blast_missing_field (user : User.t) (request : Request.t)
    (now : string) (db : DB.t) :
  let data := Request.form request in
  Request.method request = POST ->
  Form.program data = None \/ Form.database data = None \/ Form.sequence data = None ->
  let r := blast NCBIXML_parse NCBIWWW_qblast json_dumps (Some user) request now db in
  (exists e, fst r = Reply.mk [("发生错误: " ++ str_exc e, "danger")] (render_blast true))
  /\ DB.tasks (snd r) = DB.tasks db
  /\ DB.users (snd r) = DB.users db.
Proof.
  intros data Hpost Hmissing. subst data. unfold blast. rewrite Hpost. cbv zeta.
  destruct (NCBIWWW_qblast (Form.program (Request.form request))
              (Form.database (Request.form request))
              (Form.sequence (Request.form request))) as [text|e] eqn:Hq.
  2:{ destruct (blast_try_raises NCBIXML_parse NCBIWWW_qblast json_dumps user _ _ _ now db
                  (or_introl (ex_intro _ e Hq))) as (e' & ->).
      cbn. split; [now exists e'|]. now split. }
  destruct (parse_blast_results NCBIXML_parse text) as [entries|e] eqn:Hp.
  2:{ destruct (blast_try_raises NCBIXML_parse NCBIWWW_qblast json_dumps user _ _ _ now db
                  (or_intror (ex_intro _ text (ex_intro _ e (conj Hq Hp))))) as (e' & ->).
      cbn. split; [now exists e'|]. now split. }
  rewrite (blast_try_commits _ _ _ _ _ _ _ _ Hq Hp).
  unfold session_commit. cbn [DB.pending DB.tasks DB.users].
  destruct (flush_last_rejected (DB.pending db)
              (NewTask.mk (formatted_taskname (Form.program (Request.form request))
                             (Form.database (Request.form request)) now)
                          (Form.program (Request.form request))
                          (Form.database (Request.form request))
                          (Form.sequence (Request.form request))
                          (Some (json_dumps entries)) (User.id user))
              (DB.tasks db)) as (e & He).
  - intros rows. unfold insert_task. cbn [NewTask.program NewTask.database
      NewTask.sequence NewTask.taskname].
    destruct Hmissing as [-> | [-> | ->]].
    + eexists; reflexivity.
    + destruct (Form.program _); eexists; reflexivity.
    + destruct (Form.program _); [destruct (Form.database _)|]; eexists; reflexivity.
  - rewrite He. cbn. split; [now exists e|]. now split.
Qed.

(** X8: the submission handler keeps the keys of the task table unique:
    when no two rows share an id or a task name before the request, none do
    after it. *)
Theorem blast_keeps_tasks_unique (current_user : option User.t) (request : Request.t)
    (now : string) (db : DB.t) :
  unique_tasks db ->
  unique_tasks (snd (blast NCBIXML_parse NCBIWWW_qblast json_dumps
                           current_user request now db)).
Proof.
  intros [Hid Hname]. unfold blast.
  destruct current_user as [user|]; [|now split].
  destruct (Request.method request); [now split|]. cbv zeta.
  unfold blast_try, bind, call, session_add, session_commit.
  destruct (NCBIWWW_qblast _ _ _) as [text|e]; [|now split].
  destruct (parse_blast_results NCBIXML_parse text) as [entries|e]; [|now split].
  cbn [DB.pending DB.tasks DB.users].
  destruct (flush _ (DB.tasks db)) as [tasks'|e] eqn:Hflush; cbn; [|now split].
  exact (flush_unique _ _ _ Hflush Hid Hname).
Qed.

End Submission.

(** ** Viewing tasks *)

(** The query of line 173 finds a stored task under its name and owner when
    task names are unique. *)
Lemma find_task_by_name (task : Task.t) (tasks : list Task.t) :
  NoDup (map Task.taskname tasks) -> In task tasks ->
  find (fun t => String.eqb (Task.taskname t) (Task.taskname task)
                 && Z.eqb (Task.user_id t) (Task.user_id task)) tasks
  = Some task.
Proof.
  induction tasks as [|x tasks IH]; simpl; [intros _ []|].
  intros Hnd Hin. inversion Hnd as [|? ? Hx Hl]; subst.
  destruct Hin as [->|Hin].
  - now rewrite String.eqb_refl, Z.eqb_refl.
  - destruct (String.eqb (Task.taskname x) (Task.taskname task)) eqn:E.
    + apply String.eqb_eq in E. exfalso. apply Hx. rewrite E. now apply in_map.
    + simpl. now apply IH.
Qed.

Section Viewing.

Variable json_loads : string -> result (list dict).

(** X9: a registered user asking for a stored task of their own, under
    their own name, gets it: the task with an empty list when its result is
    NULL or empty, with the decoded result otherwise, and the JSON error
    when the stored text does not decode. *)
Theorem results_owner_sees (cu : User.t) (task : Task.t) (db : DB.t) :
  user_by_username (User.username cu) db = Some cu ->
  NoDup (map Task.taskname (DB.tasks db)) ->
  In task (DB.tasks db) ->
  Task.user_id task = User.id cu ->
  results json_loads (Some cu) (User.username cu) (Task.taskname task) db
  = match truthy (Task.result task) with
    | None => Reply.mk [] (render_results task [])
    | Some text =>
        match json_loads text with
        | Return parsed_results => Reply.mk [] (render_results task parsed_results)
        | Raised e => Reply.mk [] (error_500 (str_exc e))
        end
    end.
Proof.
  unfold user_by_username, results. intros -> Hnd Hin Hown.
  rewrite <- Hown, (find_task_by_name _ _ Hnd Hin), Z.eqb_refl. reflexivity.
Qed.

(** X10: a logged-in user asking under another user's name is never shown
    anything: the answer is the denial with a redirect to the own index
    when that user has a task of the given name, and the 404 page when
    not. *)
Theorem results_under_other_name (cu user : User.t) (username taskname : string)
    (db : DB.t) :
  user_by_username username db = Some user ->
  User.id cu <> User.id user ->
  results json_loads (Some cu) username taskname db
  = if existsb (fun t => String.eqb (Task.taskname t) taskname
                         && Z.eqb (Task.user_id t) (User.id user)) (DB.tasks db)
    then Reply.mk [("无权访问该任务的结果！", "danger")]
                  (redirect_user_index (User.username cu))
    else Reply.mk [] abort_404.
Proof.
  unfold user_by_username, results. intros -> Hneq.
  destruct (find _ (DB.tasks db)) as [task|] eqn:Hfind.
  - pose proof (find_some _ _ Hfind) as [Hin Hp].
    assert (existsb (fun t => String.eqb (Task.taskname t) taskname
                              && Z.eqb (Task.user_id t) (User.id user)) (DB.tasks db)
            = true) as ->
      by (apply existsb_exists; now exists task).
    apply andb_true_iff in Hp. destruct Hp as [_ Hown]. apply Z.eqb_eq in Hown.
    assert (Z.eqb (Task.user_id task) (User.id cu) = false) as ->
      by (apply Z.eqb_neq; congruence).
    reflexivity.
  - destruct (existsb _ (DB.tasks db)) eqn:E; [|reflexivity].
    apply existsb_exists in E. destruct E as (t & Hin & Hp).
    now rewrite (find_none _ _ Hfind t Hin) in Hp.
Qed.

End Viewing.

(** X11: the task list is only ever rendered for the name of the logged-in
    user: the user shown carries that name and every task listed has that
    user's id as owner. *)
Theorem user_index_lists_own_only (current_user : option User.t) (username : string)
    (db : DB.t) (tasks : list Task.t) (user : User.t) :
  Answer.page (user_index current_user username db) = user_index_html tasks user ->
  exists cu,
    current_user = Some cu
    /\ username = User.username cu
    /\ User.username user = User.username cu
    /\ In user (DB.users db)
    /\ forall t, In t tasks -> In t (DB.tasks db) /\ Task.user_id t = User.id user.
Proof.
  unfold user_index. destruct current_user as [cu|]; [|discriminate].
  destruct (String.eqb username (User.username cu)) eqn:E; [|discriminate].
  apply String.eqb_eq in E. subst username. simpl.
  unfold user_by_username.
  destruct (find _ (DB.users db)) as [u|] eqn:Hfind; [|discriminate].
  simpl. intros [= <- <-]. apply find_some in Hfind. destruct Hfind as [Hin Hname].
  apply String.eqb_eq in Hname. exists cu. repeat split; try assumption.
  - now apply filter_In in H.
  - apply filter_In in H. destruct H as [_ H]. now apply Z.eqb_eq in H.
Qed.

(** X12: a registered user opening the own index gets exactly the stored
    tasks they own, in table order, none missing. *)
Theorem user_index_lists_all_own (cu : User.t) (db : DB.t) :
  user_by_username (User.username cu) db = Some cu ->
  exists tasks,
    user_index (Some cu) (User.username cu) db
    = Answer.mk [] (user_index_html tasks cu)
    /\ tasks = filter (fun t => Z.eqb (Task.user_id t) (User.id cu)) (DB.tasks db)
    /\ forall t, In t tasks <-> In t (DB.tasks db) /\ Task.user_id t = User.id cu.
Proof.
  intros Hreg. unfold user_index. rewrite String.eqb_refl, Hreg. simpl.
  eexists. split; [reflexivity|]. split; [reflexivity|].
  intros t. rewrite filter_In, Z.eqb_eq. reflexivity.
Qed.

(** ** Deleting tasks *)

Lemma find_by_id_filtered (task_id : Z) (tasks : list Task.t) :
  find (fun t => Z.eqb (Task.id t) task_id)
       (filter (fun row => negb (Z.eqb (Task.id row) task_id)) tasks) = None.
Proof.
  induction tasks as [|x tasks IH]; simpl; [reflexivity|].
  destruct (Z.eqb (Task.id x) task_id) eqn:E; simpl; [exact IH|].
  now rewrite E.
Qed.

Lemma find_by_id_unique (task : Task.t) (tasks : list Task.t) :
  NoDup (map Task.id tasks) -> In task tasks ->
  find (fun t => Z.eqb (Task.id t) (Task.id task)) tasks = Some task.
Proof. apply find_unique. exact Z.eqb_eq. Qed.

Lemma NoDup_map_filter {A K : Type} (key : A -> K) (f : A -> bool) (l : list A) :
  NoDup (map key l) -> NoDup (map key (filter f l)).
Proof.
  induction l as [|x l IH]; simpl; [trivial|].
  intros Hnd. inversion Hnd as [|? ? Hx Hl]; subst.
  destruct (f x); simpl; [|now apply IH].
  constructor; [|now apply IH].
  intros Hin. apply Hx. apply in_map_iff in Hin. destruct Hin as (y & <- & Hy).
  apply filter_In in Hy. now apply in_map.
Qed.

(** What [delete_task] does to the store, by the row its lookup finds. *)
Lemma delete_task_store (cu : User.t) (task_id : Z) (db : DB.t) :
  snd (delete_task (Some cu) task_id db)
  = match find (fun t => Z.eqb (Task.id t) task_id) (DB.tasks db) with
    | Some task =>
        if Z.eqb (Task.user_id task) (User.id cu)
        then match flush (DB.pending db) (DB.tasks db) with
             | Return tasks' =>
                 DB.mk (DB.users db)
                       (filter (fun row => negb (Z.eqb (Task.id row) task_id)) tasks')
                       []
             | Raised _ => db
             end
        else db
    | None => db
    end.
Proof.
  unfold delete_task, dispatch, delete_task_body, delete_task_commit, bind, ret.
  destruct (find _ (DB.tasks db)) as [task|] eqn:Hfind; [|reflexivity].
  apply find_some in Hfind. destruct Hfind as [_ Hid]. apply Z.eqb_eq in Hid.
  destruct (Z.eqb (Task.user_id task) (User.id cu)); [|reflexivity].
  rewrite Hid. now destruct (flush _ _).
Qed.

(** X13: deleting never touches a row that is not the addressed task of
    the logged-in user: with unique primary keys, a stored row with another
    id, or with an owner other than the requester, is still stored after
    the request. *)
Theorem delete_task_spares_others (current_user : option User.t) (task_id : Z)
    (db : DB.t) (t : Task.t) :
  NoDup (map Task.id (DB.tasks db)) ->
  In t (DB.tasks db) ->
  Task.id t <> task_id
  \/ ~ (exists cu, current_user = Some cu /\ Task.user_id t = User.id cu) ->
  In t (DB.tasks (snd (delete_task current_user task_id db))).
Proof.
  intros Hnd Hin Hother. destruct current_user as [cu|]; [|exact Hin].
  rewrite delete_task_store.
  destruct (find _ (DB.tasks db)) as [task|] eqn:Hfind; [|exact Hin].
  destruct (Z.eqb (Task.user_id task) (User.id cu)) eqn:Hown; [|exact Hin].
  destruct (flush _ _) as [tasks'|e] eqn:Hflush; [|exact Hin].
  apply flush_appends in Hflush. destruct Hflush as (new & -> & _).
  cbn [DB.tasks]. apply filter_In. split; [apply in_app_iff; now left|].
  apply negb_true_iff, Z.eqb_neq. intros Hid.
  destruct Hother as [Hneq|Hnot]; [contradiction|].
  apply Hnot. exists cu. split; [reflexivity|].
  pose proof (find_some _ _ Hfind) as [Hin' Hid']. apply Z.eqb_eq in Hid'.
  assert (t = task) as ->.
  { rewrite <- Hid in Hfind. rewrite (find_by_id_unique _ _ Hnd Hin) in Hfind.
    congruence. }
  now apply Z.eqb_eq.
Qed.

(** X14: the owner deleting a stored task: the answer is the success
    message with a redirect to the own index, the task is gone and every
    other row is kept, in order. *)
Theorem delete_task_by_owner (cu : User.t) (task : Task.t) (db : DB.t) :
  NoDup (map Task.id (DB.tasks db)) ->
  DB.pending db = [] ->
  In task (DB.tasks db) ->
  Task.user_id task = User.id cu ->
  exists tasks',
    delete_task (Some cu) (Task.id task) db
    = (Answer.mk [("任务已成功删除！", "success")] (to_user_index (User.username cu)),
       DB.mk (DB.users db) tasks' [])
    /\ tasks' = filter (fun row => negb (Z.eqb (Task.id row) (Task.id task))) (DB.tasks db)
    /\ forall t, In t tasks' <-> In t (DB.tasks db) /\ t <> task.
Proof.
  intros Hnd Hpending Hin Hown.
  exists (filter (fun row => negb (Z.eqb (Task.id row) (Task.id task))) (DB.tasks db)).
  split; [|split; [reflexivity|]].
  - unfold delete_task, dispatch, delete_task_body, delete_task_commit, bind, ret.
    rewrite (find_by_id_unique _ _ Hnd Hin), Hown, Z.eqb_refl, Hpending. reflexivity.
  - intros t. rewrite filter_In, negb_true_iff, Z.eqb_neq. split.
    + intros [Ht Hid]. split; [assumption|]. congruence.
    + intros [Ht Hneq]. split; [assumption|]. intros Hid. apply Hneq.
      pose proof (find_by_id_unique _ _ Hnd Ht) as Hfind. rewrite Hid in Hfind.
      rewrite (find_by_id_unique _ _ Hnd Hin) in Hfind. congruence.
Qed.

(** X15: a request to delete, by an id the INTEGER primary key can hold, a
    task that does not exist or belongs to someone else changes nothing:
    the store is as before and the answer is the refusal with a redirect to
    the requester's index. *)
Theorem delete_task_refused (cu : User.t) (task_id : Z) (db : DB.t) :
  sqlite_integer task_id ->
  (forall t, In t (DB.tasks db) -> Task.id t = task_id ->
             Task.user_id t <> User.id cu) ->
  delete_task (Some cu) task_id db
  = (Answer.mk [("无权删除该任务或任务不存在！", "error")]
               (to_user_index (User.username cu)), db).
Proof.
  intros _ Hforeign. unfold delete_task, dispatch, delete_task_body.
  destruct (find _ (DB.tasks db)) as [task|] eqn:Hfind; [|reflexivity].
  apply find_some in Hfind. destruct Hfind as [Hin Hid]. apply Z.eqb_eq in Hid.
  specialize (Hforeign task Hin Hid). apply Z.eqb_neq in Hforeign.
  now rewrite Hforeign.
Qed.

(** X16: deleting is idempotent on the store: repeating the request leaves
    the store as the first request left it. *)
Theorem delete_task_idempotent (current_user : option User.t) (task_id : Z) (db : DB.t) :
  snd (delete_task current_user task_id
         (snd (delete_task current_user task_id db)))
  = snd (delete_task current_user task_id db).
Proof.
  destruct current_user as [cu|]; [|reflexivity].
  rewrite (delete_task_store cu task_id db).
  destruct (find _ (DB.tasks db)) as [task|] eqn:Hfind.
  - destruct (Z.eqb (Task.user_id task) (User.id cu)) eqn:Hown.
    + destruct (flush _ _) as [tasks'|e] eqn:Hflush.
      * rewrite delete_task_store. cbn [DB.tasks].
        now rewrite find_by_id_filtered.
      * rewrite delete_task_store, Hfind, Hown, Hflush. reflexivity.
    + rewrite delete_task_store, Hfind, Hown. reflexivity.
  - rewrite delete_task_store, Hfind. reflexivity.
Qed.

(** X17: deleting keeps the keys of the task table unique. *)
Theorem delete_task_keeps_tasks_unique (current_user : option User.t) (task_id : Z)
    (db : DB.t) :
  unique_tasks db -> unique_tasks (snd (delete_task current_user task_id db)).
Proof.
  intros [Hid Hname]. destruct current_user as [cu|]; [|now split].
  rewrite delete_task_store.
  destruct (find _ (DB.tasks db)) as [task|]; [|now split].
  destruct (Z.eqb (Task.user_id task) (User.id cu)); [|now split].
  destruct (flush _ _) as [tasks'|e] eqn:Hflush; [|now split].
  destruct (flush_unique _ _ _ Hflush Hid Hname) as [Hid' Hname'].
  split; cbn [DB.tasks]; now apply NoDup_map_filter.
Qed.

(** ** Accounts *)

Lemma find_none_existsb_false {A : Type} (f : A -> bool) (l : list A) :
  find f l = None -> existsb f l = false.
Proof.
  induction l as [|x l IH]; simpl; [reflexivity|].
  destruct (f x); [discriminate|exact IH].
Qed.

Lemma username_free (username : string) (users : list User.t) :
  find (fun u => String.eqb (User.username u) username) users = None ->
  ~ In username (map User.username users).
Proof.
  intros Hfree Hin. apply in_map_iff in Hin. destruct Hin as (u & <- & Hu).
  pose proof (find_none _ _ Hfree u Hu) as H. simpl in H.
  now rewrite String.eqb_refl in H.
Qed.

(** The register handler on a POST that carries both fields. *)
Lemma register_post_store (username password : string) (db : DB.t) :
  register POST (Credentials.mk (Some username) (Some password)) db
  = match user_by_username username db with
    | Some _ => (Answer.mk [] (register_html true), db)
    | None =>
        match flush (DB.pending db) (DB.tasks db) with
        | Raised e => (handle_exception e, db)
        | Return tasks' =>
            (Answer.mk [("注册成功，请登录！", "success")] to_login,
             DB.mk (DB.users db ++
                    [User.mk (next_user_id (DB.users db)) username password])%list
                   tasks' [])
        end
    end.
Proof.
  unfold register, dispatch, register_post, bind, call, ret, add_user_commit. simpl.
  unfold user_by_username.
  destruct (find _ (DB.users db)) as [u|] eqn:Hfind; [reflexivity|].
  unfold insert_user. rewrite (find_none_existsb_false _ _ Hfind).
  now destruct (flush _ _).
Qed.

(** X18: registering a name that is not taken appends one user row with
    the next id, the name and the password exactly as submitted, flashes the
    success message and redirects to the login page. *)
Theorem register_new (username password : string) (db : DB.t) :
  user_by_username username db = None ->
  DB.pending db = [] ->
  register POST (Credentials.mk (Some username) (Some password)) db
  = (Answer.mk [("注册成功，请登录！", "success")] to_login,
     DB.mk (DB.users db ++
            [User.mk (next_user_id (DB.users db)) username password])%list
           (DB.tasks db) []).
Proof. intros Hfree Hpending. now rewrite register_post_store, Hfree, Hpending. Qed.

(** X19: registering a name that is taken changes nothing: the form comes
    back with the name-taken flag and the store, the existing account's
    password included, is as before. *)
Theorem register_taken (username password : string) (db : DB.t) (u : User.t) :
  In u (DB.users db) ->
  User.username u = username ->
  register POST (Credentials.mk (Some username) (Some password)) db
  = (Answer.mk [] (register_html true), db).
Proof.
  intros Hin Hname. rewrite register_post_store.
  destruct (user_by_username username db) as [v|] eqn:Hfind; [reflexivity|].
  exfalso. apply (username_free _ _ Hfind). rewrite <- Hname. now apply in_map.
Qed.

(** X20: a register request that lacks the username or the password field
    ends in the JSON error of the exception handler and leaves the store as
    it is. *)
Theorem register_missing_field (form : Credentials.t) (db : DB.t) :
  Credentials.username form = None \/ Credentials.password form = None ->
  exists e, register POST form db = (handle_exception e, db).
Proof.
  unfold register, dispatch, register_post, bind, call.
  destruct form as [[username|] [password|]]; simpl; intros [H|H];
    try discriminate; eexists; reflexivity.
Qed.

(** X21: no request to the register handler changes or removes an existing
    account: the user table afterwards is the one before, possibly with one
    row appended, and the task table loses nothing. *)
Theorem register_keeps_accounts (method : Method) (form : Credentials.t) (db : DB.t) :
  exists new_users new_tasks,
    DB.users (snd (register method form db)) = (DB.users db ++ new_users)%list
    /\ List.length new_users <= 1
    /\ DB.tasks (snd (register method form db)) = (DB.tasks db ++ new_tasks)%list.
Proof.
  assert (exists (new_users : list User.t) (new_tasks : list Task.t),
             DB.users db = (DB.users db ++ new_users)%list
             /\ List.length new_users <= 1
             /\ DB.tasks db = (DB.tasks db ++ new_tasks)%list) as Hsame.
  { exists [], []. rewrite !app_nil_r. simpl. repeat split. lia. }
  destruct method; [exact Hsame|].
  destruct form as [[username|] [password|]];
    try (unfold register, dispatch, register_post, bind, call; simpl; exact Hsame).
  rewrite register_post_store.
  destruct (user_by_username username db); [exact Hsame|].
  destruct (flush _ _) as [tasks'|e] eqn:Hflush; [|exact Hsame].
  apply flush_appends in Hflush. destruct Hflush as (new & -> & _).
  eexists; exists new. cbn. repeat split. simpl. lia.
Qed.

(** X22: registering keeps ids and usernames of the user table unique. *)
Theorem register_keeps_users_unique (method : Method) (form : Credentials.t) (db : DB.t) :
  unique_users db -> unique_users (snd (register method form db)).
Proof.
  intros [Hid Hname]. destruct method; [now split|].
  destruct form as [[username|] [password|]];
    try (unfold register, dispatch, register_post, bind, call; simpl; now split).
  rewrite register_post_store. unfold user_by_username.
  destruct (find _ (DB.users db)) as [u|] eqn:Hfind; [now split|].
  destruct (flush _ _) as [tasks'|e]; [|now split].
  unfold unique_users. cbn [snd DB.users]. rewrite !map_app. simpl.
  split; apply NoDup_snoc; try assumption.
  - intros Hin. apply in_map_iff in Hin. destruct Hin as (x & Hx & Hin).
    apply next_user_id_fresh in Hin. lia.
  - now apply username_free.
Qed.

(** X23: the session changes user only through a correct password: when
    the user of the session after a login request is not the one before, it
    is a stored user whose name and password are the ones submitted, and the
    answer is the redirect to that user's index. *)
Theorem login_sound (method : Method) (form : Credentials.t)
    (current_user : option User.t) (db : DB.t) :
  snd (login method form current_user db) <> current_user ->
  exists u,
    snd (login method form current_user db) = Some u
    /\ In u (DB.users db)
    /\ Credentials.username form = Some (User.username u)
    /\ Credentials.password form = Some (User.password u)
    /\ fst (login method form current_user db)
       = Answer.mk [] (to_user_index (User.username u)).
Proof.
  unfold login. destruct method; [intros H; now elim H|].
  destruct form as [[username|] [password|]]; simpl; try (intros H; now elim H).
  unfold user_by_username.
  destruct (find _ (DB.users db)) as [u|] eqn:Hfind; [|intros H; now elim H].
  apply find_some in Hfind. destruct Hfind as [Hin Hname]. apply String.eqb_eq in Hname.
  destruct (String.eqb (User.password u) password) eqn:Hpw; [|intros H; now elim H].
  apply String.eqb_eq in Hpw. intros _. exists u. subst. now repeat split.
Qed.

(** X24: with unique usernames, a stored user who submits the own name and
    password is logged in and redirected to the own index. *)
Theorem login_complete (u : User.t) (current_user : option User.t) (db : DB.t) :
  NoDup (map User.username (DB.users db)) ->
  In u (DB.users db) ->
  login POST (Credentials.mk (Some (User.username u)) (Some (User.password u)))
        current_user db
  = (Answer.mk [] (to_user_index (User.username u)), Some u).
Proof.
  intros Hnd Hin. unfold login, user_by_username. simpl.
  rewrite (find_unique User.username String.eqb _ _ String.eqb_eq Hnd Hin).
  now rewrite String.eqb_refl.
Qed.

(** X25: register, then log in: after registering a free name, logging in
    with the same name and password succeeds as the new user. *)
Theorem register_then_login (username password : string)
    (current_user : option User.t) (db : DB.t) :
  user_by_username username db = None ->
  DB.pending db = [] ->
  login POST (Credentials.mk (Some username) (Some password)) current_user
        (snd (register POST (Credentials.mk (Some username) (Some password)) db))
  = (Answer.mk [] (to_user_index username),
     Some (User.mk (next_user_id (DB.users db)) username password)).
Proof.
  intros Hfree Hpending. rewrite register_post_store, Hfree, Hpending.
  unfold login, user_by_username in *. cbn.
  rewrite (find_none_app _ _ _ Hfree). simpl.
  now rewrite !String.eqb_refl.
Qed.

(** ** Submitting, then looking at the task *)

Lemma find_task_name_free (name : string) (owner : Z) (tasks : list Task.t) :
  ~ In name (map Task.taskname tasks) ->
  find (fun t => String.eqb (Task.taskname t) name && Z.eqb (Task.user_id t) owner)
       tasks = None.
Proof.
  induction tasks as [|x tasks IH]; simpl; [reflexivity|].
  intros Hfree. destruct (String.eqb (Task.taskname x) name) eqn:E.
  - apply String.eqb_eq in E. exfalso. apply Hfree. now left.
  - simpl. apply IH. intros H. apply Hfree. now right.
Qed.

Lemma find_id_fresh (tasks : list Task.t) :
  find (fun t => Z.eqb (Task.id t) (next_id tasks)) tasks = None.
Proof.
  destruct (find _ tasks) as [t|] eqn:Hfind; [|reflexivity].
  apply find_some in Hfind. destruct Hfind as [Hin Hid].
  apply Z.eqb_eq in Hid. apply next_id_fresh in Hin. lia.
Qed.

Section Journeys.

Variable NCBIXML_parse : string -> generator Blast.t.
Variable NCBIWWW_qblast :
  option string -> option string -> option string -> result string.
Variable json_dumps : list dict -> string.
Variable json_loads : string -> result (list dict).

(** X26: submit, then view: when [json.loads] undoes [json.dumps] on the
    entries (and the dump is not the empty text), the results page of the
    task a registered user has just submitted shows that task with exactly
    the entries the normaliser returned. *)
Theorem submit_then_view (user : User.t) (program database sequence now text : string)
    (entries : list dict) (db : DB.t) :
  NCBIWWW_qblast (Some program) (Some database) (Some sequence) = Return text ->
  parse_blast_results NCBIXML_parse text = Return entries ->
  DB.pending db = [] ->
  ~ In (formatted_taskname (Some program) (Some database) now)
       (map Task.taskname (DB.tasks db)) ->
  user_by_username (User.username user) db = Some user ->
  json_dumps entries <> EmptyString ->
  json_loads (json_dumps entries) = Return entries ->
  results json_loads (Some user) (User.username user)
    (formatted_taskname (Some program) (Some database) now)
    (snd (blast NCBIXML_parse NCBIWWW_qblast json_dumps (Some user)
            (Request.mk POST (Form.mk (Some program) (Some database) (Some sequence)))
            now db))
  = Reply.mk []
      (render_results
         (Task.mk (next_id (DB.tasks db))
                  (formatted_taskname (Some program) (Some database) now)
                  program database sequence (Some (json_dumps entries)) (User.id user))
         entries).
Proof.
  intros Hq Hp Hpending Hfree Hreg Hdump Hload.
  rewrite (blast_committed NCBIXML_parse NCBIWWW_qblast json_dumps
             _ _ _ _ _ _ _ _ Hq Hp Hpending Hfree).
  unfold results, user_by_username in *. cbn [snd DB.users DB.tasks]. rewrite Hreg.
  rewrite (find_none_app _ _ _ (find_task_name_free _ _ _ Hfree)).
  cbn [find Task.taskname Task.user_id Task.result].
  rewrite String.eqb_refl, Z.eqb_refl. cbn [andb negb].
  cbn [Task.user_id Task.result]. rewrite Z.eqb_refl. cbn [negb].
  assert (truthy (Some (json_dumps entries)) = Some (json_dumps entries)) as ->
    by (destruct (json_dumps entries); [now elim Hdump|reflexivity]).
  now rewrite Hload.
Qed.

(** X27: submit, then open the index: the task a registered user has just
    submitted is the last row of their task list, after the tasks they had. *)
Theorem submit_then_listed (user : User.t) (program database sequence now text : string)
    (entries : list dict) (db : DB.t) :
  NCBIWWW_qblast (Some program) (Some database) (Some sequence) = Return text ->
  parse_blast_results NCBIXML_parse text = Return entries ->
  DB.pending db = [] ->
  ~ In (formatted_taskname (Some program) (Some database) now)
       (map Task.taskname (DB.tasks db)) ->
  user_by_username (User.username user) db = Some user ->
  user_index (Some user) (User.username user)
    (snd (blast NCBIXML_parse NCBIWWW_qblast json_dumps (Some user)
            (Request.mk POST (Form.mk (Some program) (Some database) (Some sequence)))
            now db))
  = Answer.mk []
      (user_index_html
         (filter (fun t => Z.eqb (Task.user_id t) (User.id user)) (DB.tasks db)
          ++ [Task.mk (next_id (DB.tasks db))
                      (formatted_taskname (Some program) (Some database) now)
                      program database sequence (Some (json_dumps entries))
                      (User.id user)])%list
         user).
Proof.
  intros Hq Hp Hpending Hfree Hreg.
  rewrite (blast_committed NCBIXML_parse NCBIWWW_qblast json_dumps
             _ _ _ _ _ _ _ _ Hq Hp Hpending Hfree).
  unfold user_index, user_by_username in *. cbn [snd DB.users DB.tasks].
  rewrite String.eqb_refl, Hreg. cbn [negb].
  rewrite filter_app. cbn [filter Task.user_id]. now rewrite Z.eqb_refl.
Qed.

(** X28: submit, then delete: deleting the task just submitted, by the id
    it was given, brings the store back to what it was before the
    submission. *)
Theorem submit_then_delete (user : User.t) (program database sequence now text : string)
    (entries : list dict) (db : DB.t) :
  NCBIWWW_qblast (Some program) (Some database) (Some sequence) = Return text ->
  parse_blast_results NCBIXML_parse text = Return entries ->
  DB.pending db = [] ->
  ~ In (formatted_taskname (Some program) (Some database) now)
       (map Task.taskname (DB.tasks db)) ->
  delete_task (Some user) (next_id (DB.tasks db))
    (snd (blast NCBIXML_parse NCBIWWW_qblast json_dumps (Some user)
            (Request.mk POST (Form.mk (Some program) (Some database) (Some sequence)))
            now db))
  = (Answer.mk [("任务已成功删除！", "success")] (to_user_index (User.username user)),
     db).
Proof.
  intros Hq Hp Hpending Hfree.
  rewrite (blast_committed NCBIXML_parse NCBIWWW_qblast json_dumps
             _ _ _ _ _ _ _ _ Hq Hp Hpending Hfree).
  unfold delete_task, dispatch, delete_task_body, delete_task_commit, bind, ret.
  cbn [snd DB.users DB.tasks DB.pending flush].
  rewrite (find_none_app _ _ _ (find_id_fresh (DB.tasks db))).
  cbn [find Task.id Task.user_id]. rewrite !Z.eqb_refl.
  rewrite filter_app. cbn [filter Task.id negb]. rewrite Z.eqb_refl. cbn [negb].
  rewrite app_nil_r, filter_id.
  - destruct db as [users tasks pending]. cbn in *. now subst pending.
  - intros t Ht. apply negb_true_iff, Z.eqb_neq.
    apply next_id_fresh in Ht. lia.
Qed.

End Journeys.

(** ** The normaliser: when it returns, and when it returns nothing *)

Section NormalizerEdges.

Variable NCBIXML_parse : string -> generator Blast.t.

(** X1: the normaliser fails only when the parser does: it returns a list
    exactly when the parser's generator ends without raising, and the list
    is then the entries of every record the generator yielded. *)
Theorem normalizer_returns_iff_parser_finishes (blast_results : string) :
  (raises (NCBIXML_parse blast_results) = None
   <-> exists out, parse_blast_results NCBIXML_parse blast_results = Return out)
  /\ forall out,
       parse_blast_results NCBIXML_parse blast_results = Return out ->
       out = nesting_order (yielded (NCBIXML_parse blast_results)).
Proof.
  rewrite parse_blast_results_spec.
  destruct (raises (NCBIXML_parse blast_results)) as [e|]; split.
  - split; [discriminate|]. intros (out & H). discriminate.
  - intros out H. discriminate.
  - split; [eauto|reflexivity].
  - intros out [= <-]. reflexivity.
Qed.

(** X2: the output is the empty list exactly when no alignment of any
    record of the report has an HSP (a report without hits, or with records
    without alignments). *)
Theorem normalizer_empty_iff_no_hsp (blast_results : string) (records : list Blast.t) :
  NCBIXML_parse blast_results = iter records ->
  parse_blast_results NCBIXML_parse blast_results = Return []
  <-> forall r a, In r records -> In a (Blast.alignments r) -> Alignment.hsps a = [].
Proof.
  intros H. rewrite (parse_blast_results_report _ _ _ H). split.
  - intros [= Hnil] r a Hr Ha.
    destruct (Alignment.hsps a) as [|h hs] eqn:Hh; [reflexivity|].
    assert (In (entry a h) (nesting_order records)) as Hin.
    { apply In_nesting_order. exists r, a, h. repeat split; try assumption.
      rewrite Hh. now left. }
    rewrite Hnil in Hin. destruct Hin.
  - intros Hnone. f_equal.
    destruct (nesting_order records) as [|e out] eqn:Hout; [reflexivity|].
    assert (In e (nesting_order records)) as Hin by (rewrite Hout; now left).
    apply In_nesting_order in Hin. destruct Hin as (r & a & h & Hr & Ha & Hh & _).
    rewrite (Hnone r a Hr Ha) in Hh. destruct Hh.
Qed.

End NormalizerEdges.

(** ** The further theorems at concrete stores and requests *)

Lemma normalizer_empty_iff_no_hsp_witness :
  parse_blast_results (parse_only "report" (iter no_hits)) "report" = Return []
  <-> forall r a, In r no_hits -> In a (Blast.alignments r) -> Alignment.hsps a = [].
Proof.
  apply (normalizer_empty_iff_no_hsp (parse_only "report" (iter no_hits))
           "report" no_hits eq_refl).
Defined.

Lemma blast_row_only_on_success_witness :
  exists user,
    Some bob = Some user
    /\ fst (blast (parse_only "report" (iter one_record)) (qblast_const (Return "report"))
                  json_dumps_one (Some bob) blastn_post "20240102_093000" small_db)
       = Reply.mk [("BLAST成功!", "success")] (redirect_user_index (User.username user)).
Proof.
  apply (blast_row_only_on_success (parse_only "report" (iter one_record))
           (qblast_const (Return "report")) json_dumps_one (Some bob) blastn_post
           "20240102_093000" small_db).
  intros H. discriminate H.
Defined.

Lemma blast_success_witness :
  blast (parse_only "report" (iter one_record)) (qblast_const (Return "report"))
        json_dumps_one (Some bob)
        (Request.mk POST (Form.mk (Some "blastn") (Some "nt") (Some "ACGT")))
        "20240102_093000" small_db
  = (Reply.mk [("BLAST成功!", "success")] (redirect_user_index "bob"),
     DB.mk [alice; bob]
           [alice_task;
            Task.mk 2 "blastn_nt_20240102_093000" "blastn" "nt" "ACGT"
                    (Some "[{clone X, 100}, {clone X, 80}]") 2]
           []).
Proof.
  apply (blast_success (parse_only "report" (iter one_record))
           (qblast_const (Return "report")) json_dumps_one bob "blastn" "nt" "ACGT"
           "20240102_093000" "report" (nesting_order one_record) small_db
           eq_refl eq_refl eq_refl).
  simpl. intros [H|[]]. discriminate H.
Defined.

Lemma blast_taskname_taken_witness :
  In (formatted_taskname (Some "blastn") (Some "nt") "20240101_120000")
     (map Task.taskname (DB.tasks small_db))
  /\ DB.tasks
       (snd (blast (parse_only "report" (iter one_record))
                   (qblast_const (Return "report")) json_dumps_one (Some bob)
                   blastn_post "20240101_120000" small_db))
     = DB.tasks small_db.
Proof.
  split; [left; reflexivity|].
  apply (blast_taskname_taken (parse_only "report" (iter one_record))
           (qblast_const (Return "report")) json_dumps_one bob blastn_post
           "20240101_120000" "report" (nesting_order one_record) small_db
           eq_refl eq_refl eq_refl (or_introl eq_refl)).
Defined.

Lemma blast_missing_field_witness :
  DB.tasks
    (snd (blast (parse_only "report" (iter one_record))
                (qblast_const (Return "report")) json_dumps_one (Some bob)
                (Request.mk POST (Form.mk (Some "blastn") None (Some "ACGT")))
                "20240102_093000" small_db))
  = DB.tasks small_db.
Proof.
  apply (blast_missing_field (parse_only "report" (iter one_record))
           (qblast_const (Return "report")) json_dumps_one bob
           (Request.mk POST (Form.mk (Some "blastn") None (Some "ACGT")))
           "20240102_093000" small_db eq_refl (or_intror (or_introl eq_refl))).
Defined.

Lemma busy_db_unique_tasks : unique_tasks busy_db.
Proof.
  split; simpl; repeat constructor; simpl; intros H;
    repeat (destruct H as [H|H]; try discriminate H); exact H.
Defined.

Lemma blast_keeps_tasks_unique_witness :
  unique_tasks busy_db
  /\ unique_tasks
       (snd (blast (parse_only "report" (iter one_record))
                   (qblast_const (Return "report")) json_dumps_one (Some bob)
                   blastn_post "20240102_093000" busy_db)).
Proof.
  split; [exact busy_db_unique_tasks|].
  apply (blast_keeps_tasks_unique (parse_only "report" (iter one_record))
           (qblast_const (Return "report")) json_dumps_one (Some bob)
           blastn_post "20240102_093000" busy_db busy_db_unique_tasks).
Defined.

Lemma busy_db_unique_ids : NoDup (map Task.id (DB.tasks busy_db)).
Proof. exact (proj1 busy_db_unique_tasks). Defined.

Lemma busy_db_unique_usernames : NoDup (map User.username (DB.users busy_db)).
Proof.
  simpl; repeat constructor; simpl; intros H;
    repeat (destruct H as [H|H]; try discriminate H); exact H.
Defined.

Lemma busy_db_unique_users : unique_users busy_db.
Proof.
  split; [|exact busy_db_unique_usernames].
  simpl; repeat constructor; simpl; intros H;
    repeat (destruct H as [H|H]; try discriminate H); exact H.
Defined.

Lemma results_owner_sees_witness :
  results json_loads_one (Some bob) "bob" "blastp_nr_20240101_120500" busy_db
  = Reply.mk [] (render_results bob_task []).
Proof.
  apply (results_owner_sees json_loads_one bob bob_task busy_db eq_refl
           (proj2 busy_db_unique_tasks) (or_intror (or_introl eq_refl)) eq_refl).
Defined.

Lemma results_under_other_name_witness :
  results json_loads_one (Some bob) "alice" "blastn_nt_20240101_120000" busy_db
  = Reply.mk [("无权访问该任务的结果！", "danger")] (redirect_user_index "bob")
  /\ results json_loads_one (Some bob) "alice" "blastp_nr_20240101_120500" busy_db
     = Reply.mk [] abort_404.
Proof.
  split.
  - apply (results_under_other_name json_loads_one bob alice "alice"
             "blastn_nt_20240101_120000" busy_db eq_refl).
    discriminate.
  - apply (results_under_other_name json_loads_one bob alice "alice"
             "blastp_nr_20240101_120500" busy_db eq_refl).
    discriminate.
Defined.

Lemma user_index_lists_own_only_witness :
  exists cu,
    Some bob = Some cu
    /\ "bob" = User.username cu
    /\ User.username bob = User.username cu
    /\ In bob (DB.users busy_db)
    /\ forall t, In t [bob_task] -> In t (DB.tasks busy_db) /\ Task.user_id t = User.id bob.
Proof.
  apply (user_index_lists_own_only (Some bob) "bob" busy_db [bob_task] bob eq_refl).
Defined.

Lemma user_index_lists_all_own_witness :
  exists tasks,
    user_index (Some alice) "alice" busy_db = Answer.mk [] (user_index_html tasks alice)
    /\ tasks = [alice_task]
    /\ forall t, In t tasks <-> In t (DB.tasks busy_db) /\ Task.user_id t = User.id alice.
Proof.
  apply (user_index_lists_all_own alice busy_db eq_refl).
Defined.

Lemma delete_task_spares_others_witness :
  In alice_task (DB.tasks (snd (delete_task (Some bob) 1 busy_db)))
  /\ In alice_task (DB.tasks (snd (delete_task (Some bob) 2 busy_db))).
Proof.
  split.
  - apply (delete_task_spares_others (Some bob) 1 busy_db alice_task
             busy_db_unique_ids (or_introl eq_refl)).
    right. intros (cu & Hcu & Hown). injection Hcu as <-. discriminate Hown.
  - apply (delete_task_spares_others (Some bob) 2 busy_db alice_task
             busy_db_unique_ids (or_introl eq_refl)).
    left. discriminate.
Defined.

Lemma delete_task_by_owner_witness :
  exists tasks',
    delete_task (Some bob) 2 busy_db
    = (Answer.mk [("任务已成功删除！", "success")] (to_user_index "bob"),
       DB.mk [alice; bob] tasks' [])
    /\ tasks' = [alice_task]
    /\ forall t, In t tasks' <-> In t (DB.tasks busy_db) /\ t <> bob_task.
Proof.
  apply (delete_task_by_owner bob bob_task busy_db busy_db_unique_ids eq_refl
           (or_intror (or_introl eq_refl)) eq_refl).
Defined.

Lemma delete_task_refused_witness :
  sqlite_integer 1 /\ sqlite_integer 7
  /\ delete_task (Some bob) 1 busy_db
  = (Answer.mk [("无权删除该任务或任务不存在！", "error")] (to_user_index "bob"), busy_db)
  /\ delete_task (Some bob) 7 busy_db
     = (Answer.mk [("无权删除该任务或任务不存在！", "error")] (to_user_index "bob"), busy_db).
Proof.
  assert (sqlite_integer 1) as H1 by (unfold sqlite_integer; lia).
  assert (sqlite_integer 7) as H7 by (unfold sqlite_integer; lia).
  split; [exact H1|]. split; [exact H7|]. split.
  - apply (delete_task_refused bob 1 busy_db H1).
    intros t [<-|[<-|[]]] Hid; [discriminate|discriminate Hid].
  - apply (delete_task_refused bob 7 busy_db H7).
    intros t [<-|[<-|[]]] Hid; discriminate Hid.
Defined.

Lemma delete_task_keeps_tasks_unique_witness :
  unique_tasks busy_db /\ unique_tasks (snd (delete_task (Some bob) 2 busy_db)).
Proof.
  split; [exact busy_db_unique_tasks|].
  apply (delete_task_keeps_tasks_unique (Some bob) 2 busy_db busy_db_unique_tasks).
Defined.

Lemma register_new_witness :
  register POST carol_form busy_db
  = (Answer.mk [("注册成功，请登录！", "success")] to_login,
     DB.mk [alice; bob; User.mk 3 "carol" "pw"] [alice_task; bob_task] []).
Proof.
  apply (register_new "carol" "pw" busy_db eq_refl eq_refl).
Defined.

Lemma register_taken_witness :
  register POST (Credentials.mk (Some "alice") (Some "other")) busy_db
  = (Answer.mk [] (register_html true), busy_db).
Proof.
  apply (register_taken "alice" "other" busy_db alice (or_introl eq_refl) eq_refl).
Defined.

Lemma register_missing_field_witness :
  exists e,
    register POST (Credentials.mk (Some "carol") None) busy_db
    = (handle_exception e, busy_db).
Proof.
  apply (register_missing_field (Credentials.mk (Some "carol") None) busy_db
           (or_intror eq_refl)).
Defined.

Lemma register_keeps_users_unique_witness :
  unique_users busy_db /\ unique_users (snd (register POST carol_form busy_db)).
Proof.
  split; [exact busy_db_unique_users|].
  apply (register_keeps_users_unique POST carol_form busy_db busy_db_unique_users).
Defined.

Lemma login_sound_witness :
  exists u,
    snd (login POST alice_form (Some bob) busy_db) = Some u
    /\ In u (DB.users busy_db)
    /\ Credentials.username alice_form = Some (User.username u)
    /\ Credentials.password alice_form = Some (User.password u)
    /\ fst (login POST alice_form (Some bob) busy_db)
       = Answer.mk [] (to_user_index (User.username u)).
Proof.
  apply (login_sound POST alice_form (Some bob) busy_db).
  intros H. discriminate H.
Defined.

Lemma login_complete_witness :
  login POST (Credentials.mk (Some "bob") (Some "hunter2")) None busy_db
  = (Answer.mk [] (to_user_index "bob"), Some bob).
Proof.
  apply (login_complete bob None busy_db busy_db_unique_usernames
           (or_intror (or_introl eq_refl))).
Defined.

Lemma register_then_login_witness :
  login POST carol_form None (snd (register POST carol_form busy_db))
  = (Answer.mk [] (to_user_index "carol"), Some (User.mk 3 "carol" "pw")).
Proof.
  apply (register_then_login "carol" "pw" None busy_db eq_refl eq_refl).
Defined.

Lemma submit_then_view_witness :
  results json_loads_one (Some bob) "bob" "blastn_nt_20240102_093000"
    (snd (blast (parse_only "report" (iter one_record)) (qblast_const (Return "report"))
                json_dumps_one (Some bob)
                (Request.mk POST (Form.mk (Some "blastn") (Some "nt") (Some "ACGT")))
                "20240102_093000" busy_db))
  = Reply.mk []
      (render_results
         (Task.mk 3 "blastn_nt_20240102_093000" "blastn" "nt" "ACGT"
                  (Some "[{clone X, 100}, {clone X, 80}]") 2)
         [entry clone_X hsp_100; entry clone_X hsp_80]).
Proof.
  apply (submit_then_view (parse_only "report" (iter one_record))
           (qblast_const (Return "report")) json_dumps_one json_loads_one bob
           "blastn" "nt" "ACGT" "20240102_093000" "report"
           (nesting_order one_record) busy_db eq_refl eq_refl eq_refl).
  - simpl. intros H. repeat (destruct H as [H|H]; try discriminate H). exact H.
  - reflexivity.
  - discriminate.
  - reflexivity.
Defined.

Lemma submit_then_listed_witness :
  user_index (Some bob) "bob"
    (snd (blast (parse_only "report" (iter one_record)) (qblast_const (Return "report"))
                json_dumps_one (Some bob)
                (Request.mk POST (Form.mk (Some "blastn") (Some "nt") (Some "ACGT")))
                "20240102_093000" busy_db))
  = Answer.mk []
      (user_index_html
         [bob_task;
          Task.mk 3 "blastn_nt_20240102_093000" "blastn" "nt" "ACGT"
                  (Some "[{clone X, 100}, {clone X, 80}]") 2]
         bob).
Proof.
  apply (submit_then_listed (parse_only "report" (iter one_record))
           (qblast_const (Return "report")) json_dumps_one bob
           "blastn" "nt" "ACGT" "20240102_093000" "report"
           (nesting_order one_record) busy_db eq_refl eq_refl eq_refl).
  - simpl. intros H. repeat (destruct H as [H|H]; try discriminate H). exact H.
  - reflexivity.
Defined.

Lemma submit_then_delete_witness :
  delete_task (Some bob) 3
    (snd (blast (parse_only "report" (iter one_record)) (qblast_const (Return "report"))
                json_dumps_one (Some bob)
                (Request.mk POST (Form.mk (Some "blastn") (Some "nt") (Some "ACGT")))
                "20240102_093000" busy_db))
  = (Answer.mk [("任务已成功删除！", "success")] (to_user_index "bob"), busy_db).
Proof.
  apply (submit_then_delete (parse_only "report" (iter one_record))
           (qblast_const (Return "report")) json_dumps_one bob
           "blastn" "nt" "ACGT" "20240102_093000" "report"
           (nesting_order one_record) busy_db eq_refl eq_refl eq_refl).
  simpl. intros H. repeat (destruct H as [H|H]; try discriminate H). exact H.
Defined.
